(** * FastGPT chat-completion client: a shallow embedding and its properties

    The development follows the TypeScript class [FastGPTClient]
    (the API client of the FastGPT Chrome extension): configuration
    validation, URL building, classification of HTTP error responses, the
    retry executor with exponential backoff, the two Server-Sent-Events
    stream decoders and the event-emitting streaming wrappers.

    Conventions.
    - A JavaScript string is the list of its UTF-16 code units ([jsstring]).
    - A [Uint8Array] is a [list byte].
    - Delays are JavaScript numbers; they are modelled as exact rationals
      ([Q]), i.e. the arithmetic of [calculateRetryDelay] is read without
      rounding.
    - Everything the client obtains from the platform at run time (the
      outcome of each [fetch], each [reader.read()], the state of the abort
      signal, [Math.random()], [Date.now()]) is supplied by an environment
      record; the client itself is a function of that environment.
    - Platform functions whose definition is not part of the repository
      ([JSON.parse], [JSON.stringify], [new URL(..)], the conversion of a
      value to a string) are the fields of the class [Platform]; the
      properties hold for every instance.  [ExamplePlatform] is the instance
      at which the client is evaluated on concrete inputs.
    - A response body is a finite list of reads; a call is run until its
      generator ends. *)

From Stdlib Require Import List ZArith QArith Qpower Qminmax Bool Lia Lqa Psatz.
From Stdlib Require Import Strings.String Strings.Ascii Strings.Byte.
From Stdlib Require Import Numbers.DecimalString.
Import ListNotations.

Set Warnings "-register-all".

Local Open Scope string_scope.
Local Open Scope list_scope.
Local Open Scope Z_scope.

(* ================================================================== *)
(** ** JavaScript strings *)

Module JsString.

Definition jsstring := list Z.

(** A string literal of the source (all literals used are ASCII). *)
Definition js (s : string) : jsstring :=
  map (fun a => Z.of_N (N_of_ascii a)) (list_ascii_of_string s).

Fixpoint eqb (a b : jsstring) : bool :=
  match a, b with
  | [], [] => true
  | x :: a', y :: b' => (x =? y) && eqb a' b'
  | _, _ => false
  end.

(** [s.startsWith(p)] *)
Fixpoint startsWith (s p : jsstring) : bool :=
  match p, s with
  | [], _ => true
  | _ :: _, [] => false
  | y :: p', x :: s' => (x =? y) && startsWith s' p'
  end.

(** [s.includes(p)] *)
Fixpoint includes (s p : jsstring) : bool :=
  startsWith s p ||
  match s with
  | [] => false
  | _ :: s' => includes s' p
  end.

(** [s.split(sep)] for a separator of one code unit; the result is never
    empty. *)
Fixpoint split (s : jsstring) (sep : Z) : list jsstring :=
  match s with
  | [] => [[]]
  | x :: s' =>
      if x =? sep then [] :: split s' sep
      else match split s' sep with
           | [] => [[x]]
           | l :: ls => (x :: l) :: ls
           end
  end.

(** White space and line terminators, as [String.prototype.trim] strips
    them. *)
Definition isWhiteSpace (c : Z) : bool :=
  existsb (Z.eqb c)
    [0x9; 0xA; 0xB; 0xC; 0xD; 0x20; 0xA0; 0x1680; 0x2028; 0x2029; 0x202F;
     0x205F; 0x3000; 0xFEFF]
  || ((0x2000 <=? c) && (c <=? 0x200A)).

Fixpoint trimStart (s : jsstring) : jsstring :=
  match s with
  | [] => []
  | x :: s' => if isWhiteSpace x then trimStart s' else s
  end.

Definition trimEnd (s : jsstring) : jsstring := rev (trimStart (rev s)).

(** [s.trim()] *)
Definition trim (s : jsstring) : jsstring := trimEnd (trimStart s).

(** [s.slice(n)] for a non-negative [n]. *)
Definition slice (n : nat) (s : jsstring) : jsstring := skipn n s.

(** [s.replace(/\/$/, "")]: one trailing slash, if any, is removed. *)
Definition stripTrailingSlash (s : jsstring) : jsstring :=
  match rev s with
  | c :: r => if c =? 0x2F then rev r else s
  | [] => s
  end.

(** The decimal rendering of an integer-valued number in a template
    literal. *)
Definition ofInt (z : Z) : jsstring :=
  js (NilEmpty.string_of_int (Z.to_int z)).

(** A string is falsy exactly when it is empty. *)
Definition nonEmpty (s : jsstring) : bool :=
  match s with [] => false | _ :: _ => true end.

End JsString.
Import JsString.

Declare Scope js_scope.
Delimit Scope js_scope with js.
Notation "a +++ b" := (@app Z a b) (at level 60, right associativity) : js_scope.
Local Open Scope js_scope.

(* ================================================================== *)
(** ** The streaming UTF-8 decoder ([TextDecoder] with [{stream: true}])

    [new TextDecoder()] decodes UTF-8.  The decoder below is the byte
    handler of the Encoding standard: it keeps the code point under
    construction, the number of continuation bytes seen and needed and the
    bounds of the next continuation byte.  A byte that cannot continue the
    current sequence yields U+FFFD and is then handled again from the initial
    state.  The first scalar value of the stream is dropped when it is the
    byte order mark.  Scalar values above U+FFFF become surrogate pairs.
    The client never makes the final, flushing call, so an incomplete
    sequence at the end of the stream is never reported. *)

Module Utf8.

Record state := mkState {
  code_point : Z;
  bytes_seen : Z;
  bytes_needed : Z;
  lower_boundary : Z;
  upper_boundary : Z;
  bom_seen : bool
}.

Definition init : state := mkState 0 0 0 0x80 0xBF false.

Definition reset (st : state) : state :=
  mkState 0 0 0 0x80 0xBF (bom_seen st).

(** A lead byte, or an ASCII byte, with no sequence pending: the new state
    and the scalar values produced. *)
Definition lead (st : state) (b : Z) : state * list Z :=
  if b <=? 0x7F then (st, [b])
  else if (0xC2 <=? b) && (b <=? 0xDF) then
    (mkState (Z.land b 0x1F) 0 1 0x80 0xBF (bom_seen st), [])
  else if (0xE0 <=? b) && (b <=? 0xEF) then
    (mkState (Z.land b 0xF) 0 2
       (if b =? 0xE0 then 0xA0 else 0x80)
       (if b =? 0xED then 0x9F else 0xBF) (bom_seen st), [])
  else if (0xF0 <=? b) && (b <=? 0xF4) then
    (mkState (Z.land b 0x7) 0 3
       (if b =? 0xF0 then 0x90 else 0x80)
       (if b =? 0xF4 then 0x8F else 0xBF) (bom_seen st), [])
  else (st, [0xFFFD]).

(** The handler at one byte. *)
Definition handler (st : state) (b : Z) : state * list Z :=
  if bytes_needed st =? 0 then lead st b
  else if (lower_boundary st <=? b) && (b <=? upper_boundary st) then
    let cp := Z.lor (Z.shiftl (code_point st) 6) (Z.land b 0x3F) in
    let seen := bytes_seen st + 1 in
    if seen =? bytes_needed st then (reset st, [cp])
    else (mkState cp seen (bytes_needed st) 0x80 0xBF (bom_seen st), [])
  else
    let '(st', out) := lead (reset st) b in
    (st', 0xFFFD :: out).

(** Serialisation of the scalar values: the byte order mark is dropped if
    it comes first, and each value is written as UTF-16. *)
Definition utf16 (c : Z) : list Z :=
  if c <? 0x10000 then [c]
  else [0xD800 + Z.shiftr (c - 0x10000) 10;
        0xDC00 + Z.land (c - 0x10000) 0x3FF].

Fixpoint serialize (bom : bool) (out : list Z) : bool * jsstring :=
  match out with
  | [] => (bom, [])
  | c :: out' =>
      if negb bom && (c =? 0xFEFF) then serialize true out'
      else let '(bom', s) := serialize true out' in (bom', utf16 c ++ s)
  end.

Definition step (st : state) (b : byte) : state * jsstring :=
  let '(st1, out) := handler st (Z.of_N (Byte.to_N b)) in
  let '(bom, s) := serialize (bom_seen st1) out in
  (mkState (code_point st1) (bytes_seen st1) (bytes_needed st1)
     (lower_boundary st1) (upper_boundary st1) bom, s).

(** [decoder.decode(value, {stream: true})]: the bytes of the chunk are
    handled in order, the state is kept for the next call. *)
Fixpoint decode (st : state) (chunk : list byte) : state * jsstring :=
  match chunk with
  | [] => (st, [])
  | b :: chunk' =>
      let '(st1, s1) := step st b in
      let '(st2, s2) := decode st1 chunk' in
      (st2, s1 ++ s2)
  end.

End Utf8.

(** A string literal of the source that is not ASCII: the text is written
    as it stands in the source file and decoded. *)
Definition jsu (s : string) : jsstring :=
  snd (Utf8.decode Utf8.init (list_byte_of_string s)).

(* ================================================================== *)
(** ** JavaScript values, as [JSON.parse] and property reads produce them *)

Module Json.

(** A number is kept as the decimal it was written as: [JNum m e] is
    [m * 10^e]. *)
Inductive JSValue :=
| JUndefined
| JNull
| JBool (b : bool)
| JNum (mantissa exp10 : Z)
| JStr (s : jsstring)
| JArr (items : list JSValue)
| JObj (fields : list (jsstring * JSValue)).

(** The double nearest to [m * 10^e] is zero exactly when [m] is zero or
    [|m| * 10^e <= 2^-1075]. *)
Definition numberIsZero (m e : Z) : bool :=
  (m =? 0) ||
  ((e <? 0) && (Z.abs m * 2 ^ 1075 <=? 10 ^ (- e))).

(** [ToBoolean] *)
Definition truthy (v : JSValue) : bool :=
  match v with
  | JUndefined | JNull => false
  | JBool b => b
  | JNum m e => negb (numberIsZero m e)
  | JStr s => nonEmpty s
  | JArr _ | JObj _ => true
  end.

(** The last field with the given key ([JSON.parse] keeps the last of
    duplicate keys). *)
Fixpoint lookup (key : jsstring) (fields : list (jsstring * JSValue))
  : option JSValue :=
  match fields with
  | [] => None
  | (k, v) :: rest =>
      match lookup key rest with
      | Some v' => Some v'
      | None => if JsString.eqb k key then Some v else None
      end
  end.

(** [v.key] for the member names the client reads ([choices], [delta],
    [content], [message], [code], [statusText], [data]); none of them is an
    inherited member of objects, arrays, strings, numbers or booleans.
    [None] is the [TypeError] of reading a member of [null] or
    [undefined]. *)
Definition getMember (v : JSValue) (key : jsstring) : option JSValue :=
  match v with
  | JUndefined | JNull => None
  | JObj fields =>
      Some match lookup key fields with Some x => x | None => JUndefined end
  | _ => Some JUndefined
  end.

(** [v[0]] *)
Definition getIndex0 (v : JSValue) : option JSValue :=
  match v with
  | JUndefined | JNull => None
  | JArr items => Some (hd JUndefined items)
  | JStr (c :: _) => Some (JStr [c])
  | JObj fields =>
      Some match lookup (js "0") fields with
           | Some x => x
           | None => JUndefined
           end
  | _ => Some JUndefined
  end.

End Json.
Import Json.

(* ================================================================== *)
(** ** A JSON reader

    [JSON.parse] is a platform function; the client's definitions take it as
    a parameter.  The reader below follows the JSON grammar (objects,
    arrays, strings with their escapes, numbers, [true], [false], [null],
    the four white-space characters) and serves as the instance at which the
    client is evaluated on concrete streams. *)

Module JsonReader.

Definition isJsonSpace (c : Z) : bool :=
  (c =? 0x20) || (c =? 0x9) || (c =? 0xA) || (c =? 0xD).

Fixpoint skipSpace (s : jsstring) : jsstring :=
  match s with
  | c :: s' => if isJsonSpace c then skipSpace s' else s
  | [] => []
  end.

Definition isDigit (c : Z) : bool := (48 <=? c) && (c <=? 57).

Definition hexValue (c : Z) : option Z :=
  if isDigit c then Some (c - 48)
  else if (97 <=? c) && (c <=? 102) then Some (c - 87)
  else if (65 <=? c) && (c <=? 70) then Some (c - 55)
  else None.

Definition hex4 (a b c d : Z) : option Z :=
  match hexValue a, hexValue b, hexValue c, hexValue d with
  | Some x, Some y, Some z, Some w => Some (((x * 16 + y) * 16 + z) * 16 + w)
  | _, _, _, _ => None
  end.

(** The characters of a string after its opening quote, up to and
    including the closing quote. *)
Fixpoint readString (s : jsstring) : option (jsstring * jsstring) :=
  match s with
  | [] => None
  | 34 :: rest => Some ([], rest)
  | 92 :: 117 :: a :: b :: c :: d :: rest =>
      match hex4 a b c d, readString rest with
      | Some u, Some (str, rest') => Some (u :: str, rest')
      | _, _ => None
      end
  | 92 :: e :: rest =>
      let unescaped :=
        if e =? 34 then Some 34 else if e =? 92 then Some 92
        else if e =? 47 then Some 47 else if e =? 98 then Some 8
        else if e =? 102 then Some 12 else if e =? 110 then Some 10
        else if e =? 114 then Some 13 else if e =? 116 then Some 9
        else None in
      match unescaped, readString rest with
      | Some u, Some (str, rest') => Some (u :: str, rest')
      | _, _ => None
      end
  | c :: rest =>
      if (c <? 0x20) || (c =? 92) then None
      else match readString rest with
           | Some (str, rest') => Some (c :: str, rest')
           | None => None
           end
  end.

(** A run of digits: its value as continued from [acc], its length and the
    rest of the input. *)
Fixpoint readDigits (s : jsstring) (acc : Z) (n : Z) : Z * Z * jsstring :=
  match s with
  | c :: s' => if isDigit c then readDigits s' (acc * 10 + (c - 48)) (n + 1)
               else (acc, n, s)
  | [] => (acc, n, [])
  end.

(** [-? int frac? exp?] where [int] has no superfluous leading zero. *)
Definition readNumber (s : jsstring) : option (JSValue * jsstring) :=
  let '(neg, s1) := match s with 45 :: r => (true, r) | _ => (false, s) end in
  let intPart :=
    match s1 with
    | 48 :: r => Some (0, r)
    | c :: _ => if isDigit c
                then let '(v, _, r) := readDigits s1 0 0 in Some (v, r)
                else None
    | [] => None
    end in
  match intPart with
  | None => None
  | Some (i, s2) =>
      let fracPart :=
        match s2 with
        | 46 :: r =>
            let '(v, n, r') := readDigits r i 0 in
            if n =? 0 then None else Some (v, n, r')
        | _ => Some (i, 0, s2)
        end in
      match fracPart with
      | None => None
      | Some (m, fl, s3) =>
          let expPart :=
            match s3 with
            | c :: r =>
                if (c =? 101) || (c =? 69) then
                  let '(eneg, r1) :=
                    match r with
                    | 45 :: r' => (true, r')
                    | 43 :: r' => (false, r')
                    | _ => (false, r)
                    end in
                  let '(v, n, r2) := readDigits r1 0 0 in
                  if n =? 0 then None
                  else Some ((if eneg then - v else v), r2)
                else Some (0, s3)
            | [] => Some (0, s3)
            end in
          match expPart with
          | None => None
          | Some (e, s4) =>
              Some (JNum (if neg then - m else m) (e - fl), s4)
          end
      end
  end.

(** Values.  [fuel] bounds the number of nested calls; [parse] gives
    enough of it for the whole input. *)
Fixpoint readValue (fuel : nat) (s : jsstring) : option (JSValue * jsstring) :=
  match fuel with
  | O => None
  | S fuel' =>
      match skipSpace s with
      | 34 :: r =>
          match readString r with
          | Some (str, r') => Some (JStr str, r')
          | None => None
          end
      | 123 :: r =>
          match skipSpace r with
          | 125 :: r' => Some (JObj [], r')
          | _ =>
              match readMembers fuel' r with
              | Some (fs, r') => Some (JObj fs, r')
              | None => None
              end
          end
      | 91 :: r =>
          match skipSpace r with
          | 93 :: r' => Some (JArr [], r')
          | _ =>
              match readElements fuel' r with
              | Some (vs, r') => Some (JArr vs, r')
              | None => None
              end
          end
      | 116 :: 114 :: 117 :: 101 :: r => Some (JBool true, r)
      | 102 :: 97 :: 108 :: 115 :: 101 :: r => Some (JBool false, r)
      | 110 :: 117 :: 108 :: 108 :: r => Some (JNull, r)
      | s' => readNumber s'
      end
  end

with readElements (fuel : nat) (s : jsstring)
  : option (list JSValue * jsstring) :=
  match fuel with
  | O => None
  | S fuel' =>
      match readValue fuel' s with
      | None => None
      | Some (v, r) =>
          match skipSpace r with
          | 44 :: r' =>
              match readElements fuel' r' with
              | Some (vs, r'') => Some (v :: vs, r'')
              | None => None
              end
          | 93 :: r' => Some ([v], r')
          | _ => None
          end
      end
  end

with readMembers (fuel : nat) (s : jsstring)
  : option (list (jsstring * JSValue) * jsstring) :=
  match fuel with
  | O => None
  | S fuel' =>
      match skipSpace s with
      | 34 :: r =>
          match readString r with
          | None => None
          | Some (key, r1) =>
              match skipSpace r1 with
              | 58 :: r2 =>
                  match readValue fuel' r2 with
                  | None => None
                  | Some (v, r3) =>
                      match skipSpace r3 with
                      | 44 :: r4 =>
                          match readMembers fuel' r4 with
                          | Some (fs, r5) => Some ((key, v) :: fs, r5)
                          | None => None
                          end
                      | 125 :: r4 => Some ([(key, v)], r4)
                      | _ => None
                      end
                  end
              | _ => None
              end
          end
      | _ => None
      end
  end.

(** [None] stands for the [SyntaxError] of [JSON.parse]. *)
Definition parse (s : jsstring) : option JSValue :=
  match readValue (2 * List.length s + 2) s with
  | Some (v, r) => match skipSpace r with [] => Some v | _ => None end
  | None => None
  end.

End JsonReader.

(* ================================================================== *)
(** ** Data model of the client *)

(** A thrown value: an [Error] object (with whether it is a [TypeError], its
    [name] and its [message]) or a value that is not an [Error]. *)
Inductive Thrown :=
| ErrorObject (isTypeError : bool) (name message : jsstring)
| NotAnError.

(** [new Error(msg)] for a string. *)
Definition newError (msg : jsstring) : Thrown :=
  ErrorObject false (js "Error") msg.

(** The platform functions the client calls. *)
Class Platform := {
  (** [JSON.parse(text)]; [None] is its [SyntaxError]. *)
  JSON_parse : jsstring -> option JSValue;
  (** [new URL(text).protocol]; [None] when the constructor throws. *)
  URL_protocol : jsstring -> option jsstring;
  (** The conversion of a value to a string, or the error it throws. *)
  ToString : JSValue -> Thrown + jsstring;
  (** [JSON.stringify(value)] *)
  JSON_stringify : JSValue -> jsstring
}.

Record FastGPTConfig := {
  baseUrl : jsstring;
  appId : jsstring;
  apiKey : jsstring
}.

Inductive ApiErrorType := network | authentication | validation | server | unknown.

(** The result of [parseInt(text, 10)]. *)
Inductive JsInt := NaN | Int (z : Z).

Record FastGPTApiError := {
  code : option Z;
  message : JSValue;
  type : ApiErrorType;
  retryable : option bool;
  retryAfter : option JsInt
}.

Inductive Role := user | assistant | system.

Record ChatCompletionMessage := {
  role : Role;
  content : jsstring
}.

Record ChatCompletionRequest := {
  chatId : option jsstring;
  stream : bool;
  detail : bool;
  messages : list ChatCompletionMessage;
  variables : option JSValue
}.

(** [ChatMessage] of the storage types; [id] and [timestamp] are not read by
    the client. *)
Record ChatMessage := {
  cm_role : Role;
  cm_content : jsstring
}.

Inductive StreamingErrorType := connection | parsing | timeout | abortError.

Record StreamingError := {
  se_type : StreamingErrorType;
  se_message : JSValue;
  recoverable : bool
}.

Inductive StreamingEventType := start | chunk | error | complete | abort.

Record Metadata := {
  messageId : option jsstring;
  totalChunks : option nat;
  currentChunk : option nat
}.

Record StreamingEvent := {
  ev_type : StreamingEventType;
  ev_data : option JSValue;
  ev_error : option StreamingError;
  ev_metadata : option Metadata
}.

Record RetryOptions := {
  maxRetries : nat;
  baseDelay : Q;
  maxDelay : Q;
  backoffMultiplier : Q
}.

Definition defaultRetryOptions : RetryOptions :=
  {| maxRetries := 3; baseDelay := 1000; maxDelay := 10000;
     backoffMultiplier := 2 |}.

Record ConnectionTestResult := {
  success : bool;
  ctr_error : option JSValue;
  details : option JSValue
}.

(** *** The transport, as the client observes it *)

(** One iteration of a read loop: the abort signal is found set, or
    [reader.read()] delivers a chunk, or it rejects.  The end of the list is
    [{done: true}]. *)
Inductive ReadStep :=
| SignalAborted
| ReadValue (value : list byte)
| ReadRejects (e : Thrown).

Definition Body := list ReadStep.

Record Response := {
  ok : bool;
  status : Z;
  statusText : jsstring;
  (** [headers.get("Retry-After")] *)
  retryAfterHeader : option jsstring;
  (** [response.json()]: the error it rejects with, or the value. *)
  json : Thrown + JSValue;
  body : option Body
}.

Inductive FetchOutcome :=
| FetchRejects (e : Thrown)
| FetchResolves (r : Response).

Record Request := {
  url : jsstring;
  authorization : jsstring;
  requestBody : ChatCompletionRequest
}.

(** What the platform supplies during one call of the client. *)
Record Env := {
  (** the outcome of the [n]-th [fetch] of the call *)
  net : nat -> FetchOutcome;
  (** the [n]-th jitter draw [Math.random()] of the retry executor *)
  random : nat -> Q;
  (** [Date.now()] *)
  now : Z;
  (** the identifier generated for the exchange *)
  freshMessageId : jsstring
}.

(** What the client has done so far during the call. *)
Record World := {
  fetches : list Request;
  sleeps : list Q;
  draws : nat
}.

Definition initialWorld : World := {| fetches := []; sleeps := []; draws := 0 |}.

(* ================================================================== *)
(** ** The client *)

(** Computations of the client: they may throw and they act on the world. *)
Definition M (A : Type) : Type := World -> (Thrown + A) * World.

Definition ret {A} (a : A) : M A := fun w => (inr a, w).
Definition throw {A} (e : Thrown) : M A := fun w => (inl e, w).
Definition bind {A B} (m : M A) (k : A -> M B) : M B :=
  fun w => match m w with
           | (inr a, w') => k a w'
           | (inl e, w') => (inl e, w')
           end.

(** [try { m } catch (error) { throw h(error) }] *)
Definition rethrowing {A} (m : M A) (h : Thrown -> Thrown) : M A :=
  fun w => match m w with
           | (inr a, w') => (inr a, w')
           | (inl e, w') => (inl (h e), w')
           end.

Notation "x <- m ;; k" := (bind m (fun x => k))
  (at level 61, m at next level, right associativity).

(** [error instanceof TypeError] *)
Definition instanceofTypeError (e : Thrown) : bool :=
  match e with ErrorObject t _ _ => t | NotAnError => false end.

(** [error instanceof Error && error.message.includes(text)] *)
Definition errorMessageIncludes (e : Thrown) (text : jsstring) : bool :=
  match e with
  | ErrorObject _ _ m => includes m text
  | NotAnError => false
  end.

(** [error instanceof Error && error.name === "AbortError"] *)
Definition isAbortError (e : Thrown) : bool :=
  match e with
  | ErrorObject _ n _ => JsString.eqb n (js "AbortError")
  | NotAnError => false
  end.

(** [parseInt(text, 10)]: leading white space, an optional sign, then the
    longest run of digits. *)
Definition parseInt (text : jsstring) : JsInt :=
  let s := trimStart text in
  let '(neg, s1) :=
    match s with
    | 45 :: r => (true, r)
    | 43 :: r => (false, r)
    | _ => (false, s)
    end in
  let '(v, n, _) := JsonReader.readDigits s1 0 0 in
  if n =? 0 then NaN else Int (if neg then - v else v).

(** [sleep(ms)] *)
Definition sleep (ms : Q) : M unit :=
  fun w => (inr tt, {| fetches := fetches w; sleeps := sleeps w ++ [ms];
                       draws := draws w |}).

Section Client.

Context `{Platform}.
Variable env : Env.
Variable config : FastGPTConfig.

(** The conversion of a value inside a template literal or by
    [new Error(..)]: a string is itself. *)
Definition toStr (v : JSValue) : Thrown + jsstring :=
  match v with
  | JStr s => inr s
  | _ => ToString v
  end.

(** The value thrown by [throw new Error(value)] for a value that need not
    be a string: the new error, or the error of the conversion. *)
Definition newErrorOf (v : JSValue) : Thrown :=
  match toStr v with
  | inr s => newError s
  | inl e => e
  end.

(** [validateConfig]: [None] is [null]. *)
Definition validateConfig : option FastGPTApiError :=
  let invalid (msg : string) :=
    Some {| code := None; message := JStr (js msg); type := validation;
            retryable := None; retryAfter := None |} in
  if negb (nonEmpty (baseUrl config)) then invalid "Base URL is required"
  else if negb (nonEmpty (appId config)) then invalid "App ID is required"
  else if negb (nonEmpty (apiKey config)) then invalid "API Key is required"
  else match URL_protocol (baseUrl config) with
       | Some protocol =>
           if negb (existsb (JsString.eqb protocol) [js "http:"; js "https:"])
           then invalid "Base URL must use HTTP or HTTPS protocol"
           else None
       | None => invalid "Invalid Base URL format"
       end.

(** [buildApiUrl] *)
Definition buildApiUrl (endpoint : jsstring) : jsstring :=
  let baseUrl := stripTrailingSlash (baseUrl config) in
  let apiPath := if includes baseUrl (js "/api") then [] else js "/api" in
  baseUrl +++ apiPath +++ endpoint.

(** [value || fallback] *)
Definition orElse (value fallback : JSValue) : JSValue :=
  if truthy value then value else fallback.

(** [`HTTP ${response.status}: ${response.statusText}`] *)
Definition httpStatusLine (response : Response) : JSValue :=
  JStr (js "HTTP " +++ ofInt (status response) +++ js ": "
        +++ statusText response).

(** [parseErrorResponse]: the [catch] branch is taken when
    [response.json()] rejects and when reading [errorData.message] throws
    (the body is the JSON [null]). *)
Definition parseErrorResponse (response : Response) : FastGPTApiError :=
  let generic :=
    {| code := Some (status response); message := httpStatusLine response;
       type := unknown; retryable := Some (500 <=? status response);
       retryAfter := None |} in
  match json response with
  | inl _ => generic
  | inr errorData =>
      let retryAfterSeconds :=
        match retryAfterHeader response with
        | Some text => if nonEmpty text then Some (parseInt text) else None
        | None => None
        end in
      let fixed (msg : string) (t : ApiErrorType) (r : bool) ra :=
        {| code := Some (status response); message := JStr (js msg);
           type := t; retryable := Some r; retryAfter := ra |} in
      let s := status response in
      if s =? 401 then
        fixed "Authentication failed: Invalid API key" authentication false None
      else if s =? 403 then
        fixed "Access forbidden: Check your API key permissions"
              authentication false None
      else if s =? 404 then
        fixed "API endpoint not found: Check your Base URL" validation false None
      else if s =? 400 then
        match getMember errorData (js "message") with
        | None => generic
        | Some m =>
            {| code := Some 400;
               message := orElse m (JStr (js "Bad request: Invalid configuration"));
               type := validation; retryable := Some false;
               retryAfter := None |}
        end
      else if s =? 429 then
        fixed "Rate limit exceeded: Too many requests" server true
              retryAfterSeconds
      else if (s =? 500) || (s =? 502) || (s =? 503) || (s =? 504) then
        fixed "Server error: FastGPT service is temporarily unavailable"
              server true retryAfterSeconds
      else if s =? 408 then
        fixed "Request timeout: The server took too long to respond"
              server true None
      else
        match getMember errorData (js "message") with
        | None => generic
        | Some m =>
            {| code := Some s; message := orElse m (httpStatusLine response);
               type := unknown; retryable := Some (500 <=? s);
               retryAfter := None |}
        end
  end.

(** [isRetryableError] *)
Definition isRetryableError (e : Thrown) : bool :=
  if instanceofTypeError e && errorMessageIncludes e (js "fetch") then true
  else if errorMessageIncludes e (js "Rate limit exceeded") then true
  else if errorMessageIncludes e (js "Server error") then true
  else if errorMessageIncludes e (js "Request timeout") then true
  else if errorMessageIncludes e (js "Network error") then true
  else false.

(** [Math.random()] of the retry executor. *)
Definition mathRandom : World -> Q * World :=
  fun w => (random env (draws w),
            {| fetches := fetches w; sleeps := sleeps w;
               draws := S (draws w) |}).

(** [calculateRetryDelay]: the rate-limit branch draws no jitter. *)
Definition calculateRetryDelay (attempt : nat) (options : RetryOptions)
    (e : Thrown) : World -> Q * World :=
  fun w =>
    if errorMessageIncludes e (js "Rate limit exceeded") then
      let rateLimitDelay :=
        Qmin (baseDelay options
              * backoffMultiplier options ^ Z.of_nat (attempt + 1))
             (maxDelay options) in
      (rateLimitDelay, w)
    else
      let delay :=
        Qmin (baseDelay options * backoffMultiplier options ^ Z.of_nat attempt)
             (maxDelay options) in
      let '(r, w') := mathRandom w in
      let jitter := (r * (1 # 10) * delay)%Q in
      ((delay + jitter)%Q, w').

(** The loop of [executeWithRetry] from iteration [attempt] on, with
    [remaining = options.maxRetries - attempt]. *)
Fixpoint retryLoop {T} (operation : M T) (options : RetryOptions)
    (remaining attempt : nat) : M T :=
  fun w =>
    match operation w with
    | (inr v, w1) => (inr v, w1)
    | (inl e, w1) =>
        match remaining with
        | O => (inl e, w1)
        | S remaining' =>
            if negb (isRetryableError e) then (inl e, w1)
            else
              let '(delay, w2) := calculateRetryDelay attempt options e w1 in
              let '(_, w3) := sleep delay w2 in
              retryLoop operation options remaining' (S attempt) w3
        end
    end.

(** [executeWithRetry]; [options] is the merged option record (every call
    in the client leaves it at the defaults). *)
Definition executeWithRetry {T} (operation : M T) (options : RetryOptions)
  : M T :=
  retryLoop operation options (maxRetries options) 0.

(** [fetch(apiUrl, {method: "POST", headers, body})] *)
Definition fetch (request : Request) : World -> FetchOutcome * World :=
  fun w => (net env (List.length (fetches w)),
            {| fetches := fetches w ++ [request]; sleeps := sleeps w;
               draws := draws w |}).

Definition completionsRequest (body : ChatCompletionRequest) : Request :=
  {| url := buildApiUrl (js "/v1/chat/completions");
     authorization := js "Bearer " +++ apiKey config;
     requestBody := body |}.

(** *** The stream decoders *)

(** [try { .. } catch (error) { .. }] around the read loop of
    [processEnhancedStreamResponse]. *)
Definition enhancedCatch (e : Thrown) : Thrown :=
  if isAbortError e then newError (js "Stream was aborted")
  else if errorMessageIncludes e (js "network")
  then newError (js "Network connection lost during streaming")
  else e.

(** [data.choices && data.choices[0] && data.choices[0].delta.content];
    [None] when the evaluation throws a [TypeError]. *)
Definition enhancedCondition (data : JSValue) : option JSValue :=
  match getMember data (js "choices") with
  | None => None
  | Some choices =>
      if negb (truthy choices) then Some choices
      else match getIndex0 choices with
           | None => None
           | Some choice =>
               if negb (truthy choice) then Some choice
               else match getMember choice (js "delta") with
                    | None => None
                    | Some delta => getMember delta (js "content")
                    end
           end
  end.

(** The [try] block applied to a line that starts with the data marker:
    the deltas it yields.  A [SyntaxError] of [JSON.parse] and a
    [TypeError] of the condition are caught and the line is skipped. *)
Definition enhancedPayload (trimmedLine : jsstring) : list JSValue :=
  match JSON_parse (slice 6 trimmedLine) with
  | None => []
  | Some data =>
      match enhancedCondition data with
      | Some c => if truthy c then [c] else []
      | None => []
      end
  end.

(** The body of [for (const line of lines)]. *)
Definition enhancedLine (line : jsstring) : list JSValue :=
  let trimmedLine := trim line in
  if JsString.eqb trimmedLine [] || JsString.eqb trimmedLine (js "data: [DONE]")
  then []
  else if startsWith trimmedLine (js "data: ") then enhancedPayload trimmedLine
  else [].

(** "Process any remaining data in buffer". *)
Definition enhancedRemainder (buffer : jsstring) : list JSValue :=
  if nonEmpty (trim buffer) then
    let trimmedLine := trim buffer in
    if startsWith trimmedLine (js "data: ")
       && negb (JsString.eqb trimmedLine (js "data: [DONE]"))
    then enhancedPayload trimmedLine
    else []
  else [].

(** The read loop of [processEnhancedStreamResponse], from a decoder state
    and a buffer: the deltas yielded, in order, and the error the generator
    ends with, if any. *)
Fixpoint enhancedLoop (decoder : Utf8.state) (buffer : jsstring)
    (body : Body) : list JSValue * option Thrown :=
  match body with
  | [] => (enhancedRemainder buffer, None)
  | SignalAborted :: _ =>
      ([], Some (enhancedCatch (newError (js "Stream was aborted"))))
  | ReadRejects e :: _ => ([], Some (enhancedCatch e))
  | ReadValue value :: rest =>
      let '(decoder', text) := Utf8.decode decoder value in
      let buffer1 := buffer +++ text in
      let lines := split buffer1 10 in
      let buffer2 := last lines [] in
      let '(yields, outcome) := enhancedLoop decoder' buffer2 rest in
      (flat_map enhancedLine (removelast lines) ++ yields, outcome)
  end.

Definition processEnhancedStreamResponse (body : Body)
  : list JSValue * option Thrown :=
  enhancedLoop Utf8.init [] body.

(** *** [processStreamResponse] *)

(** The texts of the error report, as they stand in the source file. *)
Definition reportMarker : jsstring := jsu "‚ùå".
Definition reportHead : jsstring := jsu "‚ùå FastGPT API ÈîôËØØ" +++ [10; 10].
Definition reportCode : jsstring := jsu "‚Ä¢ ÈîôËØØ‰ª£Á†Å: ".
Definition reportStatus : jsstring := jsu "‚Ä¢ Áä∂ÊÄÅ: ".
Definition reportMessage : jsstring := jsu "‚Ä¢ Ê∂àÊÅØ: ".
Definition reportData : jsstring := [10] +++ jsu "‚Ä¢ ËØ¶ÁªÜ‰ø°ÊÅØ: ".
Definition hintPoints : jsstring := [10; 10] +++ jsu "üí° ËøôÈÄöÂ∏∏Ë°®Á§∫ÊÇ®ÁöÑ FastGPT Ë¥¶Êà∑‰ΩôÈ¢ù‰∏çË∂≥ÔºåËØ∑ÂâçÂæÄ FastGPT Âπ≥Âè∞ÂÖÖÂÄº„ÄÇ".
Definition hintKey : jsstring := [10; 10] +++ jsu "üí° ËØ∑Ê£ÄÊü•ÊÇ®ÁöÑ API ÂØÜÈí•ÊòØÂê¶Ê≠£Á°ÆÈÖçÁΩÆ„ÄÇ".
Definition hintRate : jsstring := [10; 10] +++ jsu "üí° ËØ∑Ê±ÇËøá‰∫éÈ¢ëÁπÅÔºåËØ∑Á®çÂêéÂÜçËØï„ÄÇ".

Definition isString (v : JSValue) (text : string) : bool :=
  match v with
  | JStr s => JsString.eqb s (js text)
  | _ => false
  end.

(** The message of the error thrown for an error frame, or the error that
    building it throws. *)
Definition errorReport (code statusText msg data : JSValue)
  : Thrown + jsstring :=
  match toStr code with
  | inl e => inl e
  | inr c =>
      match toStr statusText with
      | inl e => inl e
      | inr st =>
          match toStr msg with
          | inl e => inl e
          | inr m =>
              let base := reportHead +++ reportCode +++ c +++ [10]
                          +++ reportStatus +++ st +++ [10]
                          +++ reportMessage +++ m in
              let withData :=
                if truthy data then base +++ reportData +++ JSON_stringify data
                else base in
              inr (if isString statusText "aiPointsNotEnough"
                   then withData +++ hintPoints
                   else if isString statusText "authenticationFailed"
                   then withData +++ hintKey
                   else if isString statusText "rateLimitExceeded"
                   then withData +++ hintRate
                   else withData)
          end
      end
  end.

(** [data.code && data.statusText && data.message]; [None] when reading
    [data.code] throws. *)
Definition errorFrameCondition (data : JSValue) : option JSValue :=
  match getMember data (js "code") with
  | None => None
  | Some c =>
      if negb (truthy c) then Some c
      else match getMember data (js "statusText") with
           | None => None
           | Some st =>
               if negb (truthy st) then Some st
               else getMember data (js "message")
           end
  end.

(** [data.choices && data.choices[0] && data.choices[0].delta &&
    data.choices[0].delta.content] *)
Definition plainCondition (data : JSValue) : option JSValue :=
  match getMember data (js "choices") with
  | None => None
  | Some choices =>
      if negb (truthy choices) then Some choices
      else match getIndex0 choices with
           | None => None
           | Some choice =>
               if negb (truthy choice) then Some choice
               else match getMember choice (js "delta") with
                    | None => None
                    | Some delta =>
                        if negb (truthy delta) then Some delta
                        else getMember delta (js "content")
                    end
           end
  end.

(** The [catch (parseError)] of the line loop: an [Error] whose message
    starts with the marker is thrown again, anything else is skipped. *)
Definition plainCatch (e : Thrown) : option Thrown :=
  match e with
  | ErrorObject _ _ m => if startsWith m reportMarker then Some e else None
  | NotAnError => None
  end.

Definition memberOr (data : JSValue) (key : string) : JSValue :=
  match getMember data (js key) with Some v => v | None => JUndefined end.

(** The [try] block of [processStreamResponse] applied to a line that
    starts with the data marker: the deltas yielded and the error thrown
    out of the loop, if any.  The [SyntaxError] of [JSON.parse] and the
    [TypeError] of a member read are caught and skipped (their messages do
    not start with the marker). *)
Definition plainPayload (trimmedLine : jsstring)
  : list JSValue * option Thrown :=
  match JSON_parse (slice 6 trimmedLine) with
  | None => ([], None)
  | Some data =>
      match errorFrameCondition data with
      | None => ([], None)
      | Some isErrorFrame =>
          if truthy isErrorFrame then
            match errorReport (memberOr data "code")
                    (memberOr data "statusText") (memberOr data "message")
                    (memberOr data "data") with
            | inr msg => ([], plainCatch (newError msg))
            | inl e => ([], plainCatch e)
            end
          else
            match plainCondition data with
            | Some c => if truthy c then ([c], None) else ([], None)
            | None => ([], None)
            end
      end
  end.

Definition plainLine (line : jsstring) : list JSValue * option Thrown :=
  let trimmedLine := trim line in
  if JsString.eqb trimmedLine [] || JsString.eqb trimmedLine (js "data: [DONE]")
  then ([], None)
  else if startsWith trimmedLine (js "data: ") then plainPayload trimmedLine
  else ([], None).

(** [for (const line of lines)]: the loop stops at the first throw. *)
Fixpoint plainLines (lines : list jsstring) : list JSValue * option Thrown :=
  match lines with
  | [] => ([], None)
  | line :: rest =>
      match plainLine line with
      | (yields, Some e) => (yields, Some e)
      | (yields, None) =>
          let '(yields', outcome) := plainLines rest in
          (yields ++ yields', outcome)
      end
  end.

(** The read loop of [processStreamResponse]: each chunk is split and
    handled on its own; nothing is kept between reads but the decoder.
    This reader does not look at an abort signal. *)
Fixpoint plainLoop (decoder : Utf8.state) (body : Body)
  : list JSValue * option Thrown :=
  match body with
  | [] => ([], None)
  | SignalAborted :: rest => plainLoop decoder rest
  | ReadRejects e :: _ => ([], Some e)
  | ReadValue value :: rest =>
      let '(decoder', text) := Utf8.decode decoder value in
      match plainLines (split text 10) with
      | (yields, Some e) => (yields, Some e)
      | (yields, None) =>
          let '(yields', outcome) := plainLoop decoder' rest in
          (yields ++ yields', outcome)
      end
  end.

Definition processStreamResponse (body : Body)
  : list JSValue * option Thrown :=
  plainLoop Utf8.init body.

(** *** Requests *)

Definition userMessage (text : jsstring) : list ChatCompletionMessage :=
  [{| role := user; content := text |}].

(** [messages.map((msg) => ({role: msg.role, content: msg.content}))] *)
Definition apiMessages (history : list ChatMessage)
  : list ChatCompletionMessage :=
  map (fun msg => {| role := cm_role msg; content := cm_content msg |}) history.

Definition streamingRequest (msgs : list ChatCompletionMessage)
    (chat : option jsstring) (vars : option JSValue) : Request :=
  completionsRequest {| chatId := chat; stream := true; detail := false;
                        messages := msgs; variables := vars |}.

Definition plainRequest (msgs : list ChatCompletionMessage)
    (chat : option jsstring) (vars : option JSValue) : Request :=
  completionsRequest {| chatId := chat; stream := false; detail := false;
                        messages := msgs; variables := vars |}.

(** [if (!response.ok) { const error = await parseErrorResponse(response);
    .. throw new Error(error.message); }]: both branches of the test on
    [error.retryable] throw the same error. *)
Definition throwIfNotOk (response : Response) : M unit :=
  if negb (ok response)
  then throw (newErrorOf (message (parseErrorResponse response)))
  else ret tt.

(** The part shared by the four stream-opening operations: one [fetch],
    the status check, the presence of a body. *)
Definition openStream (request : Request) : M Body :=
  fun w =>
    match fetch request w with
    | (FetchRejects e, w') => (inl e, w')
    | (FetchResolves response, w') =>
        (_ <- throwIfNotOk response ;;
         match body response with
         | None => throw (newError (js "No response body received"))
         | Some b => ret b
         end) w'
    end.

(** [createStreamGenerator] and [createStreamGeneratorWithHistory]: the
    body the returned generator will read. *)
Definition createStreamGenerator (text : jsstring) (chat : option jsstring)
    (vars : option JSValue) : M Body :=
  openStream (streamingRequest (userMessage text) chat vars).

Definition createStreamGeneratorWithHistory (history : list ChatMessage)
    (chat : option jsstring) (vars : option JSValue) : M Body :=
  openStream (streamingRequest (apiMessages history) chat vars).

(** "Handle abort errors" in the [catch] of the enhanced variants. *)
Definition abortCatch (e : Thrown) : Thrown :=
  if isAbortError e then newError (js "Request was aborted") else e.

(** [createEnhancedStreamGenerator] and its history variant.  The timeout
    timer and the caller's abort signal act through the environment: an
    aborted [fetch] is a [FetchRejects] outcome, an aborted read is a
    [SignalAborted] or [ReadRejects] step of the body. *)
Definition createEnhancedStreamGenerator (text : jsstring)
    (chat : option jsstring) (vars : option JSValue) : M Body :=
  rethrowing (openStream (streamingRequest (userMessage text) chat vars))
             abortCatch.

Definition createEnhancedStreamGeneratorWithHistory
    (history : list ChatMessage) (chat : option jsstring)
    (vars : option JSValue) : M Body :=
  rethrowing (openStream (streamingRequest (apiMessages history) chat vars))
             abortCatch.

(** [classifyStreamingError] *)
Definition classifyStreamingError (e : Thrown) : StreamingError :=
  match e with
  | ErrorObject _ name msg =>
      let has text := includes msg (js text) in
      if JsString.eqb name (js "AbortError") || has "aborted" then
        {| se_type := abortError;
           se_message := JStr (js "Request was cancelled or timed out");
           recoverable := true |}
      else if has "timeout" then
        {| se_type := timeout;
           se_message := JStr (js "Request timed out while streaming");
           recoverable := true |}
      else if has "network" || has "fetch" || has "connection lost" then
        {| se_type := connection;
           se_message := JStr (js "Network connection lost during streaming");
           recoverable := true |}
      else if has "parse" || has "JSON" then
        {| se_type := parsing;
           se_message := JStr (js "Failed to parse streaming response");
           recoverable := false |}
      else if has "Authentication failed" || has "Invalid API key"
              || has "Access forbidden" then
        {| se_type := connection; se_message := JStr msg; recoverable := false |}
      else if has "Server error" || has "service unavailable" then
        {| se_type := connection; se_message := JStr msg; recoverable := true |}
      else
        {| se_type := connection; se_message := JStr msg; recoverable := true |}
  | NotAnError =>
      {| se_type := connection;
         se_message := JStr (js "An unknown error occurred during streaming");
         recoverable := false |}
  end.

(** *** The event-emitting wrappers *)

Definition validationEvent (validationError : FastGPTApiError)
  : StreamingEvent :=
  {| ev_type := error; ev_data := None;
     ev_error := Some {| se_type := connection;
                         se_message := message validationError;
                         recoverable := false |};
     ev_metadata := None |}.

Definition startEvent (id : jsstring) : StreamingEvent :=
  {| ev_type := start; ev_data := None; ev_error := None;
     ev_metadata := Some {| messageId := Some id; totalChunks := Some 0%nat;
                            currentChunk := Some 0%nat |} |}.

Definition chunkEvent (id : jsstring) (chunkCount : nat) (data : JSValue)
  : StreamingEvent :=
  {| ev_type := chunk; ev_data := Some data; ev_error := None;
     ev_metadata := Some {| messageId := Some id; totalChunks := None;
                            currentChunk := Some chunkCount |} |}.

Definition completeEvent (id : jsstring) (chunkCount : nat) : StreamingEvent :=
  {| ev_type := complete; ev_data := None; ev_error := None;
     ev_metadata := Some {| messageId := Some id;
                            totalChunks := Some chunkCount;
                            currentChunk := Some chunkCount |} |}.

Definition errorEvent (id : jsstring) (chunkCount : nat) (e : Thrown)
  : StreamingEvent :=
  {| ev_type := error; ev_data := None;
     ev_error := Some (classifyStreamingError e);
     ev_metadata := Some {| messageId := Some id; totalChunks := None;
                            currentChunk := Some chunkCount |} |}.

(** [for await (const chunk of streamGenerator) { chunkCount++; yield .. }]
    with [chunkCount] the count before the loop. *)
Fixpoint chunkEvents (id : jsstring) (chunkCount : nat) (yields : list JSValue)
  : list StreamingEvent :=
  match yields with
  | [] => []
  | data :: rest =>
      chunkEvent id (S chunkCount) data :: chunkEvents id (S chunkCount) rest
  end.

(** The body shared by [sendMessageStreamWithEvents] and
    [sendMessageWithHistoryStreamWithEvents]; [operation] is the call that
    creates the stream generator.  The result is the sequence of events
    the generator yields when it is run to its end. *)
Definition streamWithEvents (operation : M Body) (w : World)
  : list StreamingEvent * World :=
  match validateConfig with
  | Some validationError => ([validationEvent validationError], w)
  | None =>
      let id := freshMessageId env in
      match executeWithRetry operation defaultRetryOptions w with
      | (inl e, w') => ([startEvent id; errorEvent id 0 e], w')
      | (inr body, w') =>
          let '(yields, outcome) := processEnhancedStreamResponse body in
          let chunkCount := List.length yields in
          (startEvent id :: chunkEvents id 0 yields
             ++ [match outcome with
                 | None => completeEvent id chunkCount
                 | Some e => errorEvent id chunkCount e
                 end], w')
      end
  end.

Definition sendMessageStreamWithEvents (text : jsstring)
    (chat : option jsstring) (vars : option JSValue)
  : World -> list StreamingEvent * World :=
  streamWithEvents (createEnhancedStreamGenerator text chat vars).

Definition sendMessageWithHistoryStreamWithEvents (history : list ChatMessage)
    (chat : option jsstring) (vars : option JSValue)
  : World -> list StreamingEvent * World :=
  streamWithEvents (createEnhancedStreamGeneratorWithHistory history chat vars).

(** *** The plain streaming calls: the deltas yielded and the error the
    generator ends with, if any. *)
Definition plainStream (operation : M Body) (w : World)
  : (list JSValue * option Thrown) * World :=
  match validateConfig with
  | Some validationError =>
      (([], Some (newErrorOf (message validationError))), w)
  | None =>
      match executeWithRetry operation defaultRetryOptions w with
      | (inl e, w') => (([], Some e), w')
      | (inr body, w') => (processStreamResponse body, w')
      end
  end.

Definition sendMessageStream (text : jsstring) (chat : option jsstring)
    (vars : option JSValue) :=
  plainStream (createStreamGenerator text chat vars).

Definition sendMessageWithHistoryStream (history : list ChatMessage)
    (chat : option jsstring) (vars : option JSValue) :=
  plainStream (createStreamGeneratorWithHistory history chat vars).

(** *** The non-streaming calls *)

(** [data.choices && data.choices[0] && data.choices[0].message] *)
Definition messageCondition (data : JSValue) : option JSValue :=
  match getMember data (js "choices") with
  | None => None
  | Some choices =>
      if negb (truthy choices) then Some choices
      else match getIndex0 choices with
           | None => None
           | Some choice =>
               if negb (truthy choice) then Some choice
               else getMember choice (js "message")
           end
  end.

(** The [TypeError] of reading [choices] of [null], in the words of the
    extension's engine. *)
Definition nullReadError : Thrown :=
  ErrorObject true (js "TypeError")
    (js "Cannot read properties of null (reading 'choices')").

(** The operation retried by [sendMessage] and [sendMessageWithHistory]. *)
Definition completionOperation (request : Request) : M JSValue :=
  fun w =>
    match fetch request w with
    | (FetchRejects e, w') => (inl e, w')
    | (FetchResolves response, w') =>
        (_ <- throwIfNotOk response ;;
         match json response with
         | inl e => throw e
         | inr data =>
             match messageCondition data with
             | None => throw nullReadError
             | Some msg =>
                 if truthy msg then ret (memberOr msg "content")
                 else throw (newError
                               (js "Invalid response format from FastGPT API"))
             end
         end) w'
    end.

Definition nonStreaming (msgs : list ChatCompletionMessage)
    (chat : option jsstring) (vars : option JSValue) : M JSValue :=
  match validateConfig with
  | Some validationError => throw (newErrorOf (message validationError))
  | None =>
      executeWithRetry (completionOperation (plainRequest msgs chat vars))
                       defaultRetryOptions
  end.

Definition sendMessage (text : jsstring) (chat : option jsstring)
    (vars : option JSValue) : M JSValue :=
  nonStreaming (userMessage text) chat vars.

Definition sendMessageWithHistory (history : list ChatMessage)
    (chat : option jsstring) (vars : option JSValue) : M JSValue :=
  nonStreaming (apiMessages history) chat vars.

(** *** The connection test *)

Definition typeName (t : ApiErrorType) : jsstring :=
  match t with
  | network => js "network"
  | authentication => js "authentication"
  | validation => js "validation"
  | server => js "server"
  | unknown => js "unknown"
  end.

Definition testRequest : Request :=
  plainRequest [{| role := user; content := js "test connection" |}]
               (Some (js "test_" +++ ofInt (now env))) None.

(** The operation retried by [makeTestRequest]: [None] is
    [{success: true}], [Some errorData] is
    [{success: false, error: errorData}]. *)
Definition testOperation : M (option FastGPTApiError) :=
  fun w =>
    match fetch testRequest w with
    | (FetchRejects e, w') => (inl e, w')
    | (FetchResolves response, w') =>
        if ok response then (inr None, w')
        else
          let errorData := parseErrorResponse response in
          match retryable errorData with
          | Some true => (inl (newErrorOf (message errorData)), w')
          | _ => (inr (Some errorData), w')
          end
    end.

Definition networkError (msg : JSValue) : FastGPTApiError :=
  {| code := None; message := msg; type := network; retryable := Some true;
     retryAfter := None |}.

(** [makeTestRequest]: it never throws. *)
Definition makeTestRequest (w : World) : option FastGPTApiError * World :=
  match executeWithRetry testOperation defaultRetryOptions w with
  | (inr result, w') => (result, w')
  | (inl e, w') =>
      if instanceofTypeError e && errorMessageIncludes e (js "fetch") then
        (Some (networkError
            (JStr (js "Network error: Unable to connect to FastGPT server"))),
         w')
      else
        (Some (networkError
            match e with
            | ErrorObject _ _ msg => JStr msg
            | NotAnError => JStr (js "Unknown network error")
            end), w')
  end.

(** [testConnection] *)
Definition testConnection (w : World) : ConnectionTestResult * World :=
  match validateConfig with
  | Some validationError =>
      ({| success := false; ctr_error := Some (message validationError);
          details := Some (JStr (js "Configuration validation failed")) |}, w)
  | None =>
      match makeTestRequest w with
      | (None, w') =>
          ({| success := true; ctr_error := None;
              details := Some (JStr (js "Connection test successful")) |}, w')
      | (Some e, w') =>
          ({| success := false;
              ctr_error :=
                Some (orElse (message e) (JStr (js "Connection test failed")));
              details := Some (JStr (typeName (type e))) |}, w')
      end
  end.

End Client.

(** [FastGPTClient.getErrorMessage] *)
Definition getErrorMessage (e : FastGPTApiError) : JSValue :=
  match type e with
  | network =>
      JStr (js "Unable to connect to FastGPT server. Please check your internet connection and Base URL.")
  | authentication =>
      JStr (js "Authentication failed. Please check your API key and ensure it has the correct permissions.")
  | validation =>
      JStr (js "Configuration error. Please verify your Base URL, App ID, and API key are correct.")
  | server =>
      JStr (js "FastGPT server is temporarily unavailable. Please try again later.")
  | unknown =>
      orElse (message e)
        (JStr (js "An unexpected error occurred during connection test."))
  end.

(* ================================================================== *)
(** ** A platform instance for evaluating the client on examples

    [JSON.parse] is the reader above.  [URL_protocol] reads the scheme of
    an absolute URL (a letter, then letters, digits, [+], [-], [.] up to the
    colon, in lower case) and does not check the rest of the URL.
    [ToString] is exact on [undefined], [null], booleans, strings, integers
    below 2^53 written without exponent, and on arrays of such values;
    [JSON.stringify] is exact on the same values and on objects of them,
    for strings without characters that need escaping other than the quote
    and the backslash.  The examples stay within these bounds. *)

Module ExamplePlatform.

Definition isAlpha (c : Z) : bool :=
  ((97 <=? c) && (c <=? 122)) || ((65 <=? c) && (c <=? 90)).

Definition lower (c : Z) : Z :=
  if (65 <=? c) && (c <=? 90) then c + 32 else c.

Fixpoint schemeTail (s : jsstring) : option jsstring :=
  match s with
  | [] => None
  | c :: s' =>
      if c =? 58 then Some [58]
      else if isAlpha c || JsonReader.isDigit c
              || (c =? 43) || (c =? 45) || (c =? 46)
      then match schemeTail s' with
           | Some r => Some (lower c :: r)
           | None => None
           end
      else None
  end.

Definition protocolOf (s : jsstring) : option jsstring :=
  match s with
  | c :: s' =>
      if isAlpha c then
        match schemeTail s' with
        | Some r => Some (lower c :: r)
        | None => None
        end
      else None
  | [] => None
  end.

Definition numberText (m e : Z) : jsstring :=
  if (e =? 0) && (Z.abs m <? 2 ^ 53) then ofInt m else js "NaN".

Fixpoint join (parts : list jsstring) : jsstring :=
  match parts with
  | [] => []
  | [p] => p
  | p :: rest => p +++ [44] +++ join rest
  end.

Fixpoint toString (v : JSValue) : jsstring :=
  match v with
  | JUndefined => js "undefined"
  | JNull => js "null"
  | JBool b => if b then js "true" else js "false"
  | JNum m e => numberText m e
  | JStr s => s
  | JArr items =>
      join (map (fun x => match x with
                          | JUndefined | JNull => []
                          | _ => toString x
                          end) items)
  | JObj _ => js "[object Object]"
  end.

Definition quote (s : jsstring) : jsstring :=
  [34] +++ flat_map (fun c => if (c =? 34) || (c =? 92) then [92; c] else [c]) s
       +++ [34].

Fixpoint stringify (v : JSValue) : jsstring :=
  match v with
  | JUndefined | JNull => js "null"
  | JBool b => if b then js "true" else js "false"
  | JNum m e => numberText m e
  | JStr s => quote s
  | JArr items => [91] +++ join (map stringify items) +++ [93]
  | JObj fields =>
      [123] +++ join (map (fun kv => quote (fst kv) +++ [58]
                                     +++ stringify (snd kv)) fields)
            +++ [125]
  end.

Definition platform : Platform :=
  {| JSON_parse := JsonReader.parse;
     URL_protocol := protocolOf;
     ToString := fun v => inr (toString v);
     JSON_stringify := stringify |}.

(** Source text with the double quote written as an apostrophe. *)
Definition jsq (s : string) : jsstring :=
  map (fun c => if c =? 39 then 34 else c) (js s).

(** The UTF-8 bytes of a text written in ASCII. *)
Definition ascii (s : jsstring) : list byte :=
  map (fun c => match Byte.of_N (Z.to_N c) with
                | Some b => b
                | None => Byte.x00
                end) s.

Definition exampleConfig : FastGPTConfig :=
  {| baseUrl := js "https://fastgpt.io/"; appId := js "app";
     apiKey := js "key" |}.

(** An environment in which every [fetch] has the same outcome. *)
Definition always (outcome : FetchOutcome) : Env :=
  {| net := fun _ => outcome; random := fun _ => 1 # 2; now := 0;
     freshMessageId := js "msg_0_abc" |}.

Definition errorResponse (code : Z) (text : string)
    (header : option jsstring) (payload : Thrown + JSValue) : Response :=
  {| ok := false; status := code; statusText := js text;
     retryAfterHeader := header; json := payload; body := None |}.

Definition streamResponse (steps : Body) : Response :=
  {| ok := true; status := 200; statusText := js "OK";
     retryAfterHeader := None; json := inl NotAnError; body := Some steps |}.

End ExamplePlatform.

(* ================================================================== *)
(** ** Vocabulary of the properties *)

(** The world after one more [fetch]. *)
Definition fetched (request : Request) (w : World) : World :=
  {| fetches := fetches w ++ [request]; sleeps := sleeps w; draws := draws w |}.

(** An operation that fails with the same error at every attempt, after one
    [fetch]. *)
Definition failsEachTime {T} (operation : M T) (e : Thrown) : Prop :=
  forall w, exists request, operation w = (inl e, fetched request w).

(** The terminal events: [complete], [error] and [abort]. *)
Definition isTerminal (e : StreamingEvent) : bool :=
  match ev_type e with
  | complete | error | abort => true
  | start | chunk => false
  end.

(** A sequence of events ends an exchange properly: it holds exactly one
    terminal event, which is its last event, so that every other event,
    the [chunk] events among them, comes before it and none after it. *)
Definition oneTerminalEventLast (events : list StreamingEvent) : Prop :=
  List.length (filter isTerminal events) = 1%nat
  /\ exists before terminal,
       events = before ++ [terminal]
       /\ isTerminal terminal = true
       /\ Forall (fun e => isTerminal e = false) before.

(** The texts [decoder.decode(value, {stream: true})] returns for the
    successive chunks of a stream. *)
Fixpoint decodeEach (decoder : Utf8.state) (chunks : list (list byte))
  : list jsstring :=
  match chunks with
  | [] => []
  | value :: rest =>
      let '(decoder', text) := Utf8.decode decoder value in
      text :: decodeEach decoder' rest
  end.

(** A data frame of the stream: the data marker and a payload. *)
Definition dataFrame (payload : jsstring) : jsstring := js "data: " ++ payload.

Definition fieldOr (key : string) (fields : list (jsstring * JSValue)) : JSValue :=
  match lookup (js key) fields with Some v => v | None => JUndefined end.

(** The content delta of a streaming response [{choices: [{delta: {content}}]}]. *)
Definition frameDelta (data : JSValue) : option JSValue :=
  match data with
  | JObj fields =>
      match lookup (js "choices") fields with
      | Some (JArr (JObj choice :: _)) =>
          match lookup (js "delta") choice with
          | Some (JObj delta) => lookup (js "content") delta
          | _ => None
          end
      | _ => None
      end
  | _ => None
  end.

(** An error report of the service in place of a streaming response: an
    object whose [code], [statusText] and [message] are all truthy. *)
Definition isApiErrorFrame (data : JSValue) : bool :=
  match data with
  | JObj fields =>
      truthy (fieldOr "code" fields) && truthy (fieldOr "statusText" fields)
      && truthy (fieldOr "message" fields)
  | _ => false
  end.

(** A chunk of text ends at a line end (or is empty). *)
Definition endsLine (text : jsstring) : Prop :=
  text = [] \/ exists t, text = t ++ [10].

(** The text of the stream: each frame is followed by an empty line. *)
Definition threeFrames (payload1 malformed payload2 : jsstring) : jsstring :=
  dataFrame payload1 ++ [10; 10] ++ dataFrame malformed ++ [10; 10]
  ++ dataFrame payload2 ++ [10; 10].

(** A frame whose content delta is the letter e with an acute accent (bytes
    C3 A9 in UTF-8), followed by an empty line. *)
Definition accentFrameBytes : list byte * list byte :=
  (ExamplePlatform.ascii
     (ExamplePlatform.jsq "data: {'choices':[{'delta':{'content':'")
   ++ [Byte.xc3],
   [Byte.xa9] ++ ExamplePlatform.ascii (ExamplePlatform.jsq "'}}]}" ++ [10; 10])).

(** An operation that makes one [fetch] of the request [request] and does
    nothing else to the world. *)
Definition fetchesOnce {T} (operation : M T) (request : Request) : Prop :=
  forall w, snd (operation w) = fetched request w.

(** The worlds a call can end in: nothing was fetched (validation failed),
    or the request was fetched [k + 1] times, [k <= 3], with [k] sleeps. *)
Definition callLog (request : Request) (w : World) : Prop :=
  (fetches w = [] /\ sleeps w = [])
  \/ exists k, (k <= 3)%nat /\ fetches w = repeat request (S k)
               /\ List.length (sleeps w) = k.

(** The request of a chat call: the completions endpoint under the base
    URL, the API key as bearer token, [detail] off. *)
Definition chatRequest (config : FastGPTConfig) (chat : option jsstring)
    (vars : option JSValue) (streaming : bool)
    (msgs : list ChatCompletionMessage) : Request :=
  {| url := buildApiUrl config (js "/v1/chat/completions");
     authorization := js "Bearer " ++ apiKey config;
     requestBody := {| chatId := chat; stream := streaming; detail := false;
                       messages := msgs; variables := vars |} |}.

(** The [chunk] events of a sequence and the running index each carries. *)
Definition isChunkEvent (e : StreamingEvent) : bool :=
  match ev_type e with chunk => true | _ => false end.

Definition chunkIndexes (events : list StreamingEvent) : list (option nat) :=
  map (fun e => match ev_metadata e with
                | Some m => currentChunk m
                | None => None
                end) (filter isChunkEvent events).

(** What a decoder yields for the value of its condition: the value when it
    is truthy, nothing when it is falsy or when its evaluation threw. *)
Definition yieldsOf (condition : option JSValue) : list JSValue :=
  match condition with
  | Some c => if truthy c then [c] else []
  | None => []
  end.

Section Vocabulary.

Context `{Platform}.

(** A line that [processStreamResponse] takes for an error report of the
    service: a data line whose payload decodes to a value with truthy
    [code], [statusText] and [message]. *)
Definition isErrorReportLine (line : jsstring) : bool :=
  let trimmedLine := trim line in
  if JsString.eqb trimmedLine [] || JsString.eqb trimmedLine (js "data: [DONE]")
  then false
  else if startsWith trimmedLine (js "data: ") then
    match JSON_parse (slice 6 trimmedLine) with
    | Some data => truthy match errorFrameCondition data with
                          | Some c => c
                          | None => JUndefined
                          end
    | None => false
    end
  else false.

(** A configuration fails validation: a field is empty, or the base URL is
    not a URL with protocol [http:] or [https:]. *)
Definition failsValidation (config : FastGPTConfig) : Prop :=
  baseUrl config = [] \/ appId config = [] \/ apiKey config = []
  \/ ~ (URL_protocol (baseUrl config) = Some (js "http:")
        \/ URL_protocol (baseUrl config) = Some (js "https:")).

(** A valid data frame with content delta [delta]: one line, no white space
    after the payload, not the end-of-stream frame; the payload decodes to
    a streaming response with a truthy content delta. *)
Definition validFrame (payload : jsstring) (delta : JSValue) : Prop :=
  ~ In 10 payload
  /\ trim (dataFrame payload) = dataFrame payload
  /\ payload <> js "[DONE]"
  /\ exists data,
       JSON_parse payload = Some data
       /\ frameDelta data = Some delta
       /\ truthy delta = true
       /\ isApiErrorFrame data = false.

(** A malformed data frame: one line whose payload [JSON.parse] rejects. *)
Definition malformedFrame (payload : jsstring) : Prop :=
  ~ In 10 payload
  /\ JSON_parse (slice 6 (trim (dataFrame payload))) = None.

End Vocabulary.

Arguments js : simpl never.

(* ================================================================== *)
(** * Properties *)

(** ** Strings *)

Lemma eqb_eq (a b : jsstring) : JsString.eqb a b = true <-> a = b.
Proof.
  revert b; induction a as [|x a IH]; intros [|y b]; simpl; split;
    try congruence; try reflexivity.
  - intros E. apply andb_true_iff in E as [E1 E2].
    apply Z.eqb_eq in E1. apply IH in E2. congruence.
  - intros E. injection E as -> ->. rewrite Z.eqb_refl. simpl. now apply IH.
Qed.

Lemma eqb_refl (a : jsstring) : JsString.eqb a a = true.
Proof. now apply eqb_eq. Qed.

Lemma eqb_neq (a b : jsstring) : JsString.eqb a b = false <-> a <> b.
Proof.
  split.
  - intros E F. apply eqb_eq in F. congruence.
  - intros F. destruct (JsString.eqb a b) eqn:E; [|reflexivity].
    apply eqb_eq in E. contradiction.
Qed.

Lemma startsWith_iff (s p : jsstring) :
  startsWith s p = true <-> exists post, s = p ++ post.
Proof.
  revert s; induction p as [|y p IH]; intros s; simpl.
  - split; [intros _; now exists s | now destruct s].
  - destruct s as [|x s].
    + split; [discriminate | intros [post E]; discriminate].
    + simpl. rewrite andb_true_iff, Z.eqb_eq, IH. split.
      * intros [-> [post ->]]. now exists post.
      * intros [post E]. injection E as -> ->. split; [reflexivity | now exists post].
Qed.

Lemma startsWith_app (p post : jsstring) : startsWith (p ++ post) p = true.
Proof. apply startsWith_iff. now exists post. Qed.

Lemma includes_iff (s p : jsstring) :
  includes s p = true <-> exists pre post, s = pre ++ p ++ post.
Proof.
  induction s as [|x s IH].
  - cbn [includes]. rewrite orb_false_r, startsWith_iff. split.
    + intros [post E]. now exists [], post.
    + intros [pre [post E]]. destruct pre; [now exists post | discriminate].
  - cbn [includes]. rewrite orb_true_iff, startsWith_iff, IH. split.
    + intros [[post E] | [pre [post E]]].
      * now exists [], post.
      * exists (x :: pre), post. simpl. now rewrite E.
    + intros [[|y pre] [post E]].
      * left. now exists post.
      * right. injection E as -> E. now exists pre, post.
Qed.

Lemma stripTrailingSlash_slash (s : jsstring) :
  stripTrailingSlash (s ++ [47]) = s.
Proof.
  unfold stripTrailingSlash. rewrite rev_app_distr. simpl.
  apply rev_involutive.
Qed.

Lemma stripTrailingSlash_other (s : jsstring) :
  (forall s', s <> s' ++ [47]) -> stripTrailingSlash s = s.
Proof.
  intros N. unfold stripTrailingSlash.
  destruct (rev s) as [|c r] eqn:E; [reflexivity|].
  destruct (c =? 47) eqn:C; [|reflexivity].
  apply Z.eqb_eq in C. subst c. exfalso. apply (N (rev r)).
  rewrite <- (rev_involutive s), E. reflexivity.
Qed.

(** *** Splitting at a separator *)

Lemma split_nonempty (s : jsstring) (sep : Z) : split s sep <> [].
Proof.
  destruct s as [|x s]; simpl; [discriminate|].
  destruct (x =? sep); [discriminate|].
  destruct (split s sep); discriminate.
Qed.

(** Splitting a concatenation: the last piece of the left part is completed
    by the right part. *)
Lemma split_app (x y : jsstring) (sep : Z) :
  split (x ++ y) sep =
  removelast (split x sep) ++ split (last (split x sep) [] ++ y) sep.
Proof.
  induction x as [|c x IH].
  - reflexivity.
  - cbn [app split]. destruct (c =? sep) eqn:C.
    + pose proof (split_nonempty x sep) as NE.
      destruct (split x sep) as [|l ls] eqn:S; [contradiction|].
      rewrite IH. reflexivity.
    + rewrite IH. pose proof (split_nonempty x sep) as NE.
      destruct (split x sep) as [|l ls] eqn:S; [contradiction|].
      destruct ls as [|l2 ls].
      * simpl. rewrite C. reflexivity.
      * reflexivity.
Qed.

Lemma split_no_sep (s : jsstring) (sep : Z) :
  ~ In sep s -> split s sep = [s].
Proof.
  induction s as [|c s IH]; intros N; [reflexivity|].
  simpl. destruct (c =? sep) eqn:C.
  - apply Z.eqb_eq in C. exfalso. apply N. now left.
  - rewrite IH; [reflexivity|]. intros I. apply N. now right.
Qed.

(** A piece that holds no separator, followed by a separator. *)
Lemma split_line (s rest : jsstring) (sep : Z) :
  ~ In sep s -> split (s ++ sep :: rest) sep = s :: split rest sep.
Proof.
  intros N. rewrite split_app, (split_no_sep _ _ N). simpl.
  induction s as [|c s IH].
  - simpl. now rewrite Z.eqb_refl.
  - simpl. destruct (c =? sep) eqn:C.
    + apply Z.eqb_eq in C. exfalso. apply N. now left.
    + rewrite IH; [reflexivity|]. intros I. apply N. now right.
Qed.

(* ================================================================== *)
(** ** The URL builder *)


(** The base URLs of the client's tests. *)
Example buildApiUrl_examples :
  let build base :=
    buildApiUrl {| baseUrl := js base; appId := []; apiKey := [] |}
                (js "/v1/chat/completions") in
  build "https://fastgpt.io" = js "https://fastgpt.io/api/v1/chat/completions"
  /\ build "https://fastgpt.io/api" = js "https://fastgpt.io/api/v1/chat/completions"
  /\ build "https://fastgpt.io/" = js "https://fastgpt.io/api/v1/chat/completions".
Proof. repeat split; reflexivity. Qed.

(* ================================================================== *)
(** ** The error classifier *)

Lemma parseErrorResponse_unparsable (response : Response) (e : Thrown) :
  json response = inl e ->
  parseErrorResponse response =
  {| code := Some (status response); message := httpStatusLine response;
     type := unknown; retryable := Some (500 <=? status response);
     retryAfter := None |}.
Proof. intros E. unfold parseErrorResponse. now rewrite E. Qed.

(** C8, as the code has it.  For a response with status 401 or 403,
    [parseErrorResponse] sets [retryable] to false; the kind is
    [authentication] when the body parses as JSON and [unknown] when it does
    not. *)
Theorem parseErrorResponse_401_403 (response : Response) :
  status response = 401 \/ status response = 403 ->
  retryable (parseErrorResponse response) = Some false
  /\ (forall data, json response = inr data ->
      type (parseErrorResponse response) = authentication)
  /\ (forall e, json response = inl e ->
      type (parseErrorResponse response) = unknown).
Proof.
  intros S. unfold parseErrorResponse.
  destruct (json response) as [e|data]; repeat split;
    try discriminate; try (destruct S as [-> | ->]; reflexivity).
Qed.

Lemma parseErrorResponse_401_403_witness :
  let response :=
    ExamplePlatform.errorResponse 401 "Unauthorized" None (inr (JObj [])) in
  (status response = 401 \/ status response = 403)
  /\ retryable (parseErrorResponse response) = Some false
  /\ type (parseErrorResponse response) = authentication.
Proof.
  cbv zeta. split; [left; reflexivity|].
  pose proof (parseErrorResponse_401_403
    (ExamplePlatform.errorResponse 401 "Unauthorized" None (inr (JObj [])))
    (or_introl eq_refl)) as [R [A _]].
  split; [exact R | exact (A _ eq_refl)].
Defined.

(** C8, as stated, fails: a 401 whose body is not JSON is classified
    [unknown]. *)
Lemma unparsable_401_is_not_authentication :
  let response :=
    ExamplePlatform.errorResponse 401 "Unauthorized" None
      (inl (ErrorObject false (js "SyntaxError")
              (js "Unexpected token < in JSON at position 0"))) in
  status response = 401
  /\ type (parseErrorResponse response) = unknown
  /\ type (parseErrorResponse response) <> authentication.
Proof. cbv zeta. repeat split; discriminate. Qed.

(* ================================================================== *)
(** ** Validation *)

Section Validation.

Context `{Platform}.
Variable env : Env.
Variable config : FastGPTConfig.

Lemma nonEmpty_false (s : jsstring) : nonEmpty s = false <-> s = [].
Proof. destruct s; simpl; split; congruence. Qed.

Lemma validateConfig_fails :
  failsValidation config ->
  exists validationError,
    validateConfig config = Some validationError
    /\ type validationError = validation.
Proof.
  unfold failsValidation, validateConfig. intros F.
  destruct (nonEmpty (baseUrl config)) eqn:B; simpl; [|eauto].
  destruct (nonEmpty (appId config)) eqn:A; simpl; [|eauto].
  destruct (nonEmpty (apiKey config)) eqn:K; simpl; [|eauto].
  destruct F as [F | [F | [F | F]]];
    try (apply nonEmpty_false in F; congruence).
  destruct (URL_protocol (baseUrl config)) as [protocol|]; [|eauto].
  rewrite !orb_false_r.
  destruct (JsString.eqb protocol (js "http:")) eqn:E1.
  { apply eqb_eq in E1. subst. exfalso. apply F. now left. }
  destruct (JsString.eqb protocol (js "https:")) eqn:E2.
  { apply eqb_eq in E2. subst. exfalso. apply F. now right. }
  simpl. eauto.
Qed.

Lemma validateConfig_passes :
  validateConfig config = None -> ~ failsValidation config.
Proof.
  intros V F. destruct (validateConfig_fails F) as [e [E _]]. congruence.
Qed.

(** C10. For a configuration that fails validation, both event-emitting
    calls yield exactly one event: an [error] event whose error has type
    [connection], is not recoverable and carries the message of the
    validation error.  No [start] event is yielded and nothing is
    fetched. *)
Theorem validation_failure_yields_one_error_event
    (text : jsstring) (history : list ChatMessage) (chat : option jsstring)
    (vars : option JSValue) (w : World) :
  failsValidation config ->
  exists validationError,
    validateConfig config = Some validationError
    /\ type validationError = validation
    /\ let events :=
         [{| ev_type := error; ev_data := None;
             ev_error := Some {| se_type := connection;
                                 se_message := message validationError;
                                 recoverable := false |};
             ev_metadata := None |}] in
       sendMessageStreamWithEvents env config text chat vars w = (events, w)
       /\ sendMessageWithHistoryStreamWithEvents env config history chat vars w
          = (events, w)
       /\ Forall (fun e => ev_type e <> start) events.
Proof.
  intros F. destruct (validateConfig_fails F) as [e [E T]].
  exists e. split; [exact E|]. split; [exact T|]. cbv zeta.
  unfold sendMessageStreamWithEvents,
    sendMessageWithHistoryStreamWithEvents, streamWithEvents.
  rewrite E. repeat split.
  constructor; [discriminate | constructor].
Qed.

End Validation.

Lemma validation_failure_witness :
  let config := {| baseUrl := js "ftp://example.com"; appId := js "app";
                   apiKey := js "key" |} in
  let env := ExamplePlatform.always (FetchRejects NotAnError) in
  @failsValidation ExamplePlatform.platform config
  /\ fst (@sendMessageStreamWithEvents ExamplePlatform.platform env config
            (js "Hello") None None initialWorld)
     = [{| ev_type := error; ev_data := None;
           ev_error :=
             Some {| se_type := connection;
                     se_message :=
                       JStr (js "Base URL must use HTTP or HTTPS protocol");
                     recoverable := false |};
           ev_metadata := None |}].
Proof.
  cbv zeta.
  assert (F : @failsValidation ExamplePlatform.platform
                {| baseUrl := js "ftp://example.com"; appId := js "app";
                   apiKey := js "key" |}).
  { right. right. right. intros [E | E]; discriminate. }
  split; [exact F|].
  destruct (@validation_failure_yields_one_error_event
              ExamplePlatform.platform
              (ExamplePlatform.always (FetchRejects NotAnError)) _
              (js "Hello") [] None None initialWorld F)
    as [e [V [_ [S _]]]].
  rewrite S. vm_compute in V. injection V as <-. reflexivity.
Defined.

(* ================================================================== *)
(** ** The retry delay *)

Section RetryDelay.

Variable env : Env.

Lemma jitter_bound (delay cap r : Q) :
  (delay <= cap -> 0 <= cap -> 0 <= r -> r <= 1 ->
   delay + r * (1 # 10) * delay <= cap * (11 # 10))%Q.
Proof.
  intros D C R0 R1.
  destruct (Qlt_le_dec delay 0) as [N | P].
  - assert (r * delay <= 0)%Q by nra. lra.
  - assert (r * delay <= delay)%Q by nra. lra.
Qed.


End RetryDelay.



(* ================================================================== *)
(** ** The retry executor *)

Section Retry.

Context `{Platform}.
Variable env : Env.

Lemma calculateRetryDelay_world (attempt : nat) (options : RetryOptions)
    (e : Thrown) (w : World) :
  fetches (snd (calculateRetryDelay env attempt options e w)) = fetches w
  /\ sleeps (snd (calculateRetryDelay env attempt options e w)) = sleeps w.
Proof.
  unfold calculateRetryDelay, mathRandom.
  destruct (errorMessageIncludes e (js "Rate limit exceeded")); split; reflexivity.
Qed.

(** A non-retryable error is thrown again at once: one attempt, no sleep. *)
Lemma retryLoop_not_retryable {T} (operation : M T) (options : RetryOptions)
    (e : Thrown) (remaining attempt : nat) (w : World) :
  failsEachTime operation e -> isRetryableError e = false ->
  let r := retryLoop env operation options remaining attempt w in
  fst r = inl e
  /\ List.length (fetches (snd r)) = S (List.length (fetches w))
  /\ sleeps (snd r) = sleeps w.
Proof.
  intros F N. cbv zeta. destruct (F w) as [request E].
  destruct remaining; cbn [retryLoop]; rewrite E; [|rewrite N]; cbn;
    rewrite length_app; cbn; repeat split; lia.
Qed.

(** A retryable error that persists uses every attempt, with a sleep between
    two attempts. *)
Lemma retryLoop_retryable {T} (operation : M T) (options : RetryOptions)
    (e : Thrown) (remaining : nat) :
  failsEachTime operation e -> isRetryableError e = true ->
  forall attempt w,
  let r := retryLoop env operation options remaining attempt w in
  fst r = inl e
  /\ List.length (fetches (snd r)) = (List.length (fetches w) + remaining + 1)%nat
  /\ List.length (sleeps (snd r)) = (List.length (sleeps w) + remaining)%nat.
Proof.
  intros F R. induction remaining as [|remaining IH]; intros attempt w; cbv zeta.
  - destruct (F w) as [request E]. cbn [retryLoop]. rewrite E. cbn.
    rewrite length_app. cbn. repeat split; lia.
  - destruct (F w) as [request E]. cbn [retryLoop]. rewrite E, R. cbn [negb].
    destruct (calculateRetryDelay env attempt options e (fetched request w))
      as [delay w2] eqn:D.
    pose proof (calculateRetryDelay_world attempt options e (fetched request w))
      as [W1 W2].
    rewrite D in W1, W2. cbn [snd] in W1, W2. cbn [sleep].
    match goal with |- context [retryLoop _ _ _ _ _ ?w3] =>
      specialize (IH (S attempt) w3) end.
    cbv zeta in IH. destruct IH as [I1 [I2 I3]]. cbn [fetches sleeps] in I2, I3.
    rewrite I1, I2, I3, W1, W2. cbn. rewrite !length_app. cbn.
    repeat split; lia.
Qed.

End Retry.

Section PersistentFailure.

Context `{Platform}.
Variable env : Env.
Variable config : FastGPTConfig.
Variable response : Response.

(** Every [fetch] of the call resolves with the same response. *)
Hypothesis persistent : forall n, net env n = FetchResolves response.
Hypothesis notOk : ok response = false.

Lemma completionOperation_fails (request : Request) :
  failsEachTime (completionOperation env request)
                (newErrorOf (message (parseErrorResponse response))).
Proof.
  intros w. exists request.
  unfold completionOperation, fetch. rewrite persistent.
  unfold bind, throwIfNotOk. rewrite notOk. reflexivity.
Qed.

Lemma openStream_fails (request : Request) :
  failsEachTime (openStream env request)
                (newErrorOf (message (parseErrorResponse response))).
Proof.
  intros w. exists request.
  unfold openStream, fetch. rewrite persistent.
  unfold bind, throwIfNotOk. rewrite notOk. reflexivity.
Qed.

Lemma testOperation_fails :
  retryable (parseErrorResponse response) = Some true ->
  failsEachTime (testOperation env config)
                (newErrorOf (message (parseErrorResponse response))).
Proof.
  intros R w. exists (testRequest env config).
  unfold testOperation, fetch. rewrite persistent, notOk, R. reflexivity.
Qed.

(** The statuses the classifier names as retryable, with a body that parses
    as JSON: the message it builds is one the retry executor recognises. *)
Lemma named_retryable_status (data : JSValue) :
  In (status response) [429; 500; 502; 503; 504; 408] ->
  json response = inr data ->
  exists msg,
    message (parseErrorResponse response) = JStr msg
    /\ retryable (parseErrorResponse response) = Some true
    /\ isRetryableError (newError msg) = true.
Proof.
  intros S J. unfold parseErrorResponse. rewrite J.
  cbn [In] in S.
  destruct S as [S | [S | [S | [S | [S | [S | []]]]]]]; rewrite <- S; cbn;
    eexists; repeat split; reflexivity.
Qed.

(** C2, as the code has it.  When every attempt is answered by the same
    response with a status among 429, 500, 502, 503, 504, 408 and a body
    that parses as JSON, [sendMessage] and [testConnection] each make
    [maxRetries + 1 = 4] fetches, then report the failure. *)
Theorem persistent_retryable_status_uses_all_attempts
    (text : jsstring) (chat : option jsstring) (vars : option JSValue)
    (data : JSValue) :
  validateConfig config = None ->
  In (status response) [429; 500; 502; 503; 504; 408] ->
  json response = inr data ->
  let sent := sendMessage env config text chat vars initialWorld in
  let tested := testConnection env config initialWorld in
  List.length (fetches (snd sent)) = (maxRetries defaultRetryOptions + 1)%nat
  /\ List.length (fetches (snd sent)) = 4%nat
  /\ (exists e, fst sent = inl e)
  /\ List.length (fetches (snd tested)) = 4%nat
  /\ success (fst tested) = false.
Proof.
  intros V S J. cbv zeta.
  destruct (named_retryable_status data S J) as [msg [M [R I]]].
  assert (E : newErrorOf (message (parseErrorResponse response)) = newError msg)
    by (rewrite M; reflexivity).
  pose proof (retryLoop_retryable env
    (completionOperation env
       (plainRequest config (userMessage text) chat vars))
    defaultRetryOptions (newError msg) 3) as L1.
  rewrite <- E in L1 at 1.
  specialize (L1 (completionOperation_fails _) I 0%nat initialWorld).
  pose proof (retryLoop_retryable env (testOperation env config)
    defaultRetryOptions (newError msg) 3) as L2.
  rewrite <- E in L2 at 1.
  specialize (L2 (testOperation_fails R) I 0%nat initialWorld).
  cbv zeta in L1, L2. destruct L1 as [A1 [A2 _]]. destruct L2 as [B1 [B2 _]].
  unfold sendMessage, nonStreaming, testConnection, makeTestRequest,
    executeWithRetry.
  rewrite V. cbn [maxRetries defaultRetryOptions].
  repeat split.
  - exact A2.
  - exact A2.
  - eexists. exact A1.
  - destruct (retryLoop env (testOperation env config) defaultRetryOptions 3 0
                initialWorld) as [[e|r] w'] eqn:T; cbn [fst snd] in *.
    + destruct (instanceofTypeError e && errorMessageIncludes e (js "fetch"));
        exact B2.
    + discriminate.
  - destruct (retryLoop env (testOperation env config) defaultRetryOptions 3 0
                initialWorld) as [[e|r] w'] eqn:T; cbn [fst snd] in *.
    + destruct (instanceofTypeError e && errorMessageIncludes e (js "fetch"));
        reflexivity.
    + discriminate.
Qed.

End PersistentFailure.

Lemma persistent_retryable_status_witness :
  let response :=
    ExamplePlatform.errorResponse 503 "Service Unavailable" None
      (inr (JObj [(js "message", JStr (js "Service unavailable"))])) in
  let env := ExamplePlatform.always (FetchResolves response) in
  let config := ExamplePlatform.exampleConfig in
  (forall n, net env n = FetchResolves response)
  /\ ok response = false
  /\ @validateConfig ExamplePlatform.platform config = None
  /\ In (status response) [429; 500; 502; 503; 504; 408]
  /\ List.length
       (fetches (snd (@sendMessage ExamplePlatform.platform env config
                        (js "Hello") None None initialWorld))) = 4%nat.
Proof.
  cbv zeta.
  split; [intros n; reflexivity|]. split; [reflexivity|].
  split; [reflexivity|]. split; [cbn; tauto|].
  refine (proj1 (proj2 (@persistent_retryable_status_uses_all_attempts
    ExamplePlatform.platform
    (ExamplePlatform.always (FetchResolves
      (ExamplePlatform.errorResponse 503 "Service Unavailable" None
        (inr (JObj [(js "message", JStr (js "Service unavailable"))])))))
    ExamplePlatform.exampleConfig
    (ExamplePlatform.errorResponse 503 "Service Unavailable" None
      (inr (JObj [(js "message", JStr (js "Service unavailable"))])))
    (fun n => eq_refl) eq_refl (js "Hello") None None _ eq_refl _ eq_refl))).
  cbn; tauto.
Defined.

(** C2, as stated, fails: a 429 whose body is not JSON is classified by the
    [catch] branch as not retryable ([429 < 500]); the call makes one fetch
    and does not sleep. *)
Lemma unparsable_429_makes_one_attempt :
  let response :=
    ExamplePlatform.errorResponse 429 "Too Many Requests" None
      (inl (ErrorObject false (js "SyntaxError")
              (js "Unexpected token < in JSON at position 0"))) in
  let env := ExamplePlatform.always (FetchResolves response) in
  let config := ExamplePlatform.exampleConfig in
  let sent := @sendMessage ExamplePlatform.platform env config (js "Hello")
                None None initialWorld in
  @validateConfig ExamplePlatform.platform config = None
  /\ retryable (parseErrorResponse response) = Some false
  /\ List.length (fetches (snd sent)) = 1%nat
  /\ sleeps (snd sent) = []
  /\ fst sent = inl (newError (js "HTTP 429: Too Many Requests")).
Proof. cbv zeta. repeat split; vm_compute; reflexivity. Qed.

(** C4 at status 505.  The classifier marks the response retryable, yet the
    retry executor, which decides from the text of the message, throws the
    error again after the first attempt: one fetch, no sleep. *)
Theorem status_505_is_marked_retryable_but_not_retried :
  let response :=
    ExamplePlatform.errorResponse 505 "HTTP Version Not Supported" None
      (inr (JObj [])) in
  let env := ExamplePlatform.always (FetchResolves response) in
  let config := ExamplePlatform.exampleConfig in
  let sent := @sendMessage ExamplePlatform.platform env config (js "Hello")
                None None initialWorld in
  let e := newError (js "HTTP 505: HTTP Version Not Supported") in
  type (parseErrorResponse response) = unknown
  /\ retryable (parseErrorResponse response) = Some true
  /\ isRetryableError e = false
  /\ fst sent = inl e
  /\ List.length (fetches (snd sent)) = 1%nat
  /\ sleeps (snd sent) = [].
Proof. cbv zeta. repeat split; vm_compute; reflexivity. Qed.

(** The converse case of the same text-based decision: a 400, which the
    classifier marks as not retryable, is retried when the message of its
    body holds one of the phrases the executor looks for. *)
Example status_400_is_retried_on_its_message :
  let response :=
    ExamplePlatform.errorResponse 400 "Bad Request" None
      (inr (JObj [(js "message", JStr (js "Server error"))])) in
  let env := ExamplePlatform.always (FetchResolves response) in
  let sent := @sendMessage ExamplePlatform.platform env
                ExamplePlatform.exampleConfig (js "Hello") None None
                initialWorld in
  retryable (parseErrorResponse response) = Some false
  /\ List.length (fetches (snd sent)) = 4%nat.
Proof. cbv zeta. split; vm_compute; reflexivity. Qed.

(** C6 on the code.  The [Retry-After] header of a 429 is parsed into the
    classified error, but the error that is thrown carries only the
    message, and [calculateRetryDelay] never reads the parsed value:
    whatever the header, the sleeps are the shifted backoff delays 2000,
    4000 and 8000 ms. *)
Theorem retry_after_header_is_not_used (header : option jsstring) :
  let response h :=
    ExamplePlatform.errorResponse 429 "Too Many Requests" h (inr (JObj [])) in
  let sent h :=
    @sendMessage ExamplePlatform.platform
      (ExamplePlatform.always (FetchResolves (response h)))
      ExamplePlatform.exampleConfig (js "Hello") None None initialWorld in
  retryAfter (parseErrorResponse (response (Some (js "30")))) = Some (Int 30)
  /\ sleeps (snd (sent (Some (js "30")))) = [2000; 4000; 8000]%Q
  /\ sleeps (snd (sent header)) = [2000; 4000; 8000]%Q.
Proof. cbv zeta. repeat split; vm_compute; reflexivity. Qed.

(* ================================================================== *)
(** ** The event sequence of an exchange *)

Section Events.

Context `{Platform}.
Variable env : Env.
Variable config : FastGPTConfig.

Lemma chunkEvents_not_terminal (id : jsstring) (yields : list JSValue) :
  forall chunkCount,
    Forall (fun e => isTerminal e = false) (chunkEvents id chunkCount yields).
Proof.
  induction yields as [|data rest IH]; intros chunkCount; cbn [chunkEvents].
  - constructor.
  - constructor; [reflexivity | apply IH].
Qed.

Lemma filter_none {A} (f : A -> bool) (l : list A) :
  Forall (fun x => f x = false) l -> filter f l = [].
Proof.
  induction 1 as [|x l E _ IH]; [reflexivity|]. cbn. now rewrite E.
Qed.

Lemma oneTerminalEventLast_intro (before : list StreamingEvent)
    (terminal : StreamingEvent) :
  Forall (fun e => isTerminal e = false) before ->
  isTerminal terminal = true ->
  oneTerminalEventLast (before ++ [terminal]).
Proof.
  intros B T. split.
  - rewrite filter_app, (filter_none _ _ B). cbn. now rewrite T.
  - now exists before, terminal.
Qed.

(** Whatever the operation that opens the stream does, the wrapper yields
    one terminal event, last. *)
Lemma streamWithEvents_terminal (operation : M Body) (w : World) :
  oneTerminalEventLast (fst (streamWithEvents env config operation w)).
Proof.
  unfold streamWithEvents.
  destruct (validateConfig config) as [validationError|].
  - apply (oneTerminalEventLast_intro []); [constructor | reflexivity].
  - destruct (executeWithRetry env operation defaultRetryOptions w)
      as [[e|body] w'].
    + apply (oneTerminalEventLast_intro [startEvent (freshMessageId env)]);
        [repeat constructor | reflexivity].
    + destruct (processEnhancedStreamResponse body) as [yields outcome].
      cbn [fst]. rewrite app_comm_cons.
      apply oneTerminalEventLast_intro.
      * constructor; [reflexivity | apply chunkEvents_not_terminal].
      * destruct outcome; reflexivity.
Qed.

(** C1. The events yielded by [sendMessageStreamWithEvents] and by
    [sendMessageWithHistoryStreamWithEvents], run to the end, hold exactly
    one terminal event ([complete], [error] or [abort]); it is the last
    event: every [chunk] event comes before it and no event after it. *)
Theorem exchange_has_one_terminal_event
    (text : jsstring) (history : list ChatMessage) (chat : option jsstring)
    (vars : option JSValue) (w : World) :
  oneTerminalEventLast
    (fst (sendMessageStreamWithEvents env config text chat vars w))
  /\ oneTerminalEventLast
       (fst (sendMessageWithHistoryStreamWithEvents env config history chat
               vars w)).
Proof. split; apply streamWithEvents_terminal. Qed.

(** The order of the events of an exchange that passes validation: [start],
    then the [chunk] events numbered from 1, then the terminal event. *)
Lemma streamWithEvents_shape (operation : M Body) (w : World) :
  validateConfig config = None ->
  exists chunks terminal,
    fst (streamWithEvents env config operation w)
    = startEvent (freshMessageId env) :: chunks ++ [terminal]
    /\ Forall (fun e => ev_type e = chunk) chunks
    /\ (ev_type terminal = complete \/ ev_type terminal = error).
Proof.
  intros V. unfold streamWithEvents. rewrite V.
  destruct (executeWithRetry env operation defaultRetryOptions w)
    as [[e|body] w'].
  - exists [], (errorEvent (freshMessageId env) 0 e). repeat split.
    + constructor.
    + now right.
  - destruct (processEnhancedStreamResponse body) as [yields outcome].
    eexists _, _. split; [reflexivity|]. split.
    + generalize 0%nat. induction yields as [|d r IH]; intros n; cbn;
        constructor; [reflexivity | apply IH].
    + destruct outcome; [now right | now left].
Qed.

End Events.

(* ================================================================== *)
(** ** The stream decoders *)

(** *** The text decoder does not depend on how the bytes are cut *)

Lemma decode_app (st : Utf8.state) (a b : list byte) :
  Utf8.decode st (a ++ b) =
  let '(st1, s1) := Utf8.decode st a in
  let '(st2, s2) := Utf8.decode st1 b in
  (st2, s1 ++ s2).
Proof.
  revert st. induction a as [|x a IH]; intros st.
  - cbn. now destruct (Utf8.decode st b).
  - cbn [app Utf8.decode]. destruct (Utf8.step st x) as [st1 s1].
    rewrite IH. destruct (Utf8.decode st1 a) as [st2 s2].
    destruct (Utf8.decode st2 b) as [st3 s3]. now rewrite app_assoc.
Qed.

Lemma last_split_no_sep (s : jsstring) (sep : Z) :
  ~ In sep (last (split s sep) []).
Proof.
  induction s as [|c s IH]; [intros []|].
  cbn [split]. pose proof (split_nonempty s sep) as NE.
  destruct (c =? sep) eqn:C.
  - destruct (split s sep) as [|l ls]; [contradiction|]. exact IH.
  - destruct (split s sep) as [|l ls]; [contradiction|].
    destruct ls as [|l2 ls].
    + cbn in *. intros [E | I]; [apply Z.eqb_neq in C; congruence | now apply IH].
    + exact IH.
Qed.

Lemma removelast_app_last {A} (l : list A) (d : A) :
  l <> [] -> removelast l ++ [last l d] = l.
Proof. intros NE. symmetry. now apply app_removelast_last. Qed.

Lemma last_app_nonempty {A} (a b : list A) (d : A) :
  b <> [] -> last (a ++ b) d = last b d.
Proof.
  intros NE. induction a as [|x a IH]; [reflexivity|].
  cbn [app last]. destruct (a ++ b) eqn:E; [|exact IH].
  apply app_eq_nil in E as [_ E]. contradiction.
Qed.

Section Decoders.

Context `{Platform}.

Lemma decodeEach_concat (chunks : list (list byte)) :
  forall decoder,
    List.concat (decodeEach decoder chunks)
    = snd (Utf8.decode decoder (List.concat chunks)).
Proof.
  induction chunks as [|value rest IH]; intros decoder; [reflexivity|].
  cbn [List.concat decodeEach]. rewrite decode_app.
  destruct (Utf8.decode decoder value) as [d1 t1]. cbn [List.concat].
  rewrite IH. now destruct (Utf8.decode d1 (List.concat rest)).
Qed.

(** The enhanced decoder on a stream that delivers chunks until it ends:
    the deltas are those of the lines of the whole decoded text, the text
    after the last line end being handled as the remainder. *)
Lemma enhancedLoop_whole_text (chunks : list (list byte)) :
  forall decoder buffer,
    ~ In 10 buffer ->
    enhancedLoop decoder buffer (map ReadValue chunks) =
    let lines :=
      split (buffer ++ snd (Utf8.decode decoder (List.concat chunks))) 10 in
    (flat_map enhancedLine (removelast lines)
       ++ enhancedRemainder (last lines []), None).
Proof.
  induction chunks as [|value rest IH]; intros decoder buffer NB; cbv zeta.
  - cbn. rewrite app_nil_r, (split_no_sep _ _ NB). reflexivity.
  - cbn [map enhancedLoop List.concat]. rewrite decode_app.
    destruct (Utf8.decode decoder value) as [d1 t1].
    rewrite (IH d1 _ (last_split_no_sep _ _)). cbv zeta.
    destruct (Utf8.decode d1 (List.concat rest)) as [d2 t2]. cbn [snd].
    rewrite (app_assoc buffer t1 t2), (split_app (buffer ++ t1) t2).
    set (lines1 := split (buffer ++ t1) 10).
    set (lines2 := split (last lines1 [] ++ t2) 10).
    assert (NE : lines2 <> []) by apply split_nonempty.
    rewrite (last_app_nonempty _ _ _ NE).
    rewrite (removelast_app _ NE), flat_map_app, <- app_assoc.
    reflexivity.
Qed.

(** The sibling of the defect reported for C3: the enhanced decoder yields
    the same deltas however the byte sequence is cut into chunks, also
    inside a character. *)
Lemma processEnhancedStreamResponse_chunking (chunks1 chunks2 : list (list byte)) :
  List.concat chunks1 = List.concat chunks2 ->
  processEnhancedStreamResponse (map ReadValue chunks1)
  = processEnhancedStreamResponse (map ReadValue chunks2).
Proof.
  intros E. unfold processEnhancedStreamResponse.
  rewrite !enhancedLoop_whole_text by (intros []). now rewrite E.
Qed.

End Decoders.

(** *** Frames *)

Section Frames.

Context `{Platform}.

Lemma dataFrame_not_done (payload : jsstring) :
  payload <> js "[DONE]" ->
  JsString.eqb (dataFrame payload) (js "data: [DONE]") = false.
Proof.
  intros N. apply eqb_neq. intros E. apply N.
  change (js "data: [DONE]") with (js "data: " ++ js "[DONE]") in E.
  unfold dataFrame in E. now apply app_inv_head in E.
Qed.

Lemma dataFrame_no_newline (payload : jsstring) :
  ~ In 10 payload -> ~ In 10 (dataFrame payload).
Proof.
  intros N I. unfold dataFrame in I. apply in_app_or in I as [I | I];
    [|contradiction].
  vm_compute in I. repeat (destruct I as [I | I]; [discriminate|]). exact I.
Qed.

Lemma frameDelta_enhanced (data delta : JSValue) :
  frameDelta data = Some delta -> enhancedCondition data = Some delta.
Proof.
  unfold frameDelta, enhancedCondition. intros F.
  destruct data as [| | | | | |fields]; try discriminate. cbn [getMember].
  destruct (lookup (js "choices") fields) as [[| | | | |items|]|];
    try discriminate.
  destruct items as [|[| | | | | |choice] items]; try discriminate.
  cbn [getIndex0 hd truthy negb getMember].
  destruct (lookup (js "delta") choice) as [[| | | | | |d]|]; try discriminate.
  cbn [getIndex0 hd truthy negb getMember]. now rewrite F.
Qed.

Lemma frameDelta_plain (data delta : JSValue) :
  frameDelta data = Some delta -> plainCondition data = Some delta.
Proof.
  unfold frameDelta, plainCondition. intros F.
  destruct data as [| | | | | |fields]; try discriminate. cbn [getMember].
  destruct (lookup (js "choices") fields) as [[| | | | |items|]|];
    try discriminate.
  destruct items as [|[| | | | | |choice] items]; try discriminate.
  cbn [getIndex0 hd truthy negb getMember].
  destruct (lookup (js "delta") choice) as [[| | | | | |d]|]; try discriminate.
  cbn [getIndex0 hd truthy negb getMember]. now rewrite F.
Qed.

Lemma errorFrameCondition_object (fields : list (jsstring * JSValue)) :
  exists v, errorFrameCondition (JObj fields) = Some v
            /\ truthy v = isApiErrorFrame (JObj fields).
Proof.
  unfold errorFrameCondition, isApiErrorFrame, fieldOr. cbn [getMember].
  destruct (truthy match lookup (js "code") fields with
                   | Some x => x | None => JUndefined end) eqn:C;
    cbn [negb andb].
  - destruct (truthy match lookup (js "statusText") fields with
                     | Some x => x | None => JUndefined end) eqn:S;
      cbn [negb andb].
    + eexists. split; reflexivity.
    + eexists. split; [reflexivity | exact S].
  - eexists. split; [reflexivity | exact C].
Qed.

Lemma enhancedLine_valid (payload : jsstring) (delta : JSValue) :
  validFrame payload delta -> enhancedLine (dataFrame payload) = [delta].
Proof.
  intros [_ [T [D [data [P [F [Y _]]]]]]]. unfold enhancedLine. rewrite T.
  rewrite (dataFrame_not_done _ D).
  replace (JsString.eqb (dataFrame payload) []) with false by reflexivity.
  cbn [orb]. unfold dataFrame at 1. rewrite startsWith_app.
  unfold enhancedPayload. change (slice 6 (dataFrame payload)) with payload.
  now rewrite P, (frameDelta_enhanced _ _ F), Y.
Qed.

Lemma enhancedLine_malformed (payload : jsstring) :
  malformedFrame payload -> enhancedLine (dataFrame payload) = [].
Proof.
  intros [_ P]. unfold enhancedLine, enhancedPayload. rewrite P.
  now repeat match goal with |- context [if ?c then _ else _] => destruct c end.
Qed.

End Frames.

Section PlainDecoder.

Context `{Platform}.

Lemma plainLine_valid (payload : jsstring) (delta : JSValue) :
  validFrame payload delta -> plainLine (dataFrame payload) = ([delta], None).
Proof.
  intros [_ [T [D [data [P [F [Y E]]]]]]]. unfold plainLine. rewrite T.
  rewrite (dataFrame_not_done _ D).
  replace (JsString.eqb (dataFrame payload) []) with false by reflexivity.
  cbn [orb]. unfold dataFrame at 1. rewrite startsWith_app.
  unfold plainPayload. change (slice 6 (dataFrame payload)) with payload.
  rewrite P.
  destruct data as [| | | | | |fields]; try discriminate.
  destruct (errorFrameCondition_object fields) as [v [C V]].
  rewrite C, V, E. now rewrite (frameDelta_plain _ _ F), Y.
Qed.

Lemma plainLine_malformed (payload : jsstring) :
  malformedFrame payload -> plainLine (dataFrame payload) = ([], None).
Proof.
  intros [_ P]. unfold plainLine, plainPayload. rewrite P.
  now repeat match goal with |- context [if ?c then _ else _] => destruct c end.
Qed.

Lemma plainLines_app (a b : list jsstring) :
  plainLines (a ++ b) =
  match plainLines a with
  | (yields, Some e) => (yields, Some e)
  | (yields, None) =>
      let '(yields', outcome) := plainLines b in (yields ++ yields', outcome)
  end.
Proof.
  induction a as [|line a IH]; cbn [app plainLines].
  - now destruct (plainLines b).
  - destruct (plainLine line) as [y [e|]]; [reflexivity|].
    rewrite IH. destruct (plainLines a) as [ya [e|]]; [reflexivity|].
    destruct (plainLines b) as [yb r]. now rewrite app_assoc.
Qed.

(** Empty lines yield nothing. *)
Lemma plainLines_nonEmpty (lines : list jsstring) :
  plainLines lines = plainLines (filter nonEmpty lines).
Proof.
  induction lines as [|line lines IH]; [reflexivity|].
  destruct line as [|c line]; cbn [filter nonEmpty].
  - cbn [plainLines]. replace (plainLine []) with (@nil JSValue, @None Thrown)
      by reflexivity. rewrite IH. now destruct (plainLines (filter nonEmpty lines)).
  - cbn [plainLines]. now rewrite IH.
Qed.

(** The plain decoder handles the lines of each decoded chunk, chunk after
    chunk. *)
Lemma plainLoop_texts (chunks : list (list byte)) :
  forall decoder,
    plainLoop decoder (map ReadValue chunks)
    = plainLines (flat_map (fun text => split text 10)
                           (decodeEach decoder chunks)).
Proof.
  induction chunks as [|value rest IH]; intros decoder; [reflexivity|].
  cbn [map plainLoop decodeEach].
  destruct (Utf8.decode decoder value) as [d1 t1]. cbn [flat_map].
  rewrite plainLines_app, IH. reflexivity.
Qed.

End PlainDecoder.

Lemma split_at_sep (a rest : jsstring) (sep : Z) :
  split (a ++ sep :: rest) sep = split a sep ++ split rest sep.
Proof.
  rewrite split_app, (split_line _ _ _ (last_split_no_sep a sep)).
  change (last (split a sep) [] :: split rest sep)
    with ([last (split a sep) []] ++ split rest sep).
  rewrite app_assoc, removelast_app_last; [reflexivity | apply split_nonempty].
Qed.

(** When every chunk ends at a line end, the lines handled chunk by chunk
    are, empty lines apart, the lines of the whole text. *)
Lemma aligned_chunks_lines (texts : list jsstring) :
  Forall endsLine texts ->
  filter nonEmpty (flat_map (fun text => split text 10) texts)
  = filter nonEmpty (split (List.concat texts) 10).
Proof.
  induction 1 as [|text texts E _ IH]; [reflexivity|].
  cbn [flat_map List.concat]. rewrite filter_app, IH.
  destruct E as [-> | [t ->]]; [reflexivity|].
  rewrite <- app_assoc. cbn [app]. rewrite !split_at_sep, !filter_app.
  cbn. now rewrite app_nil_r.
Qed.

Lemma split_sep_cons (rest : jsstring) (sep : Z) :
  split (sep :: rest) sep = [] :: split rest sep.
Proof. cbn [split]. now rewrite Z.eqb_refl. Qed.

(** *** A malformed frame between two valid frames *)

Section MalformedFrame.

Context `{Platform}.
Variables payload1 malformed payload2 : jsstring.
Variables delta1 delta2 : JSValue.

Hypothesis valid1 : validFrame payload1 delta1.
Hypothesis isMalformed : malformedFrame malformed.
Hypothesis valid2 : validFrame payload2 delta2.

Lemma threeFrames_lines :
  split (threeFrames payload1 malformed payload2) 10
  = [dataFrame payload1; []; dataFrame malformed; []; dataFrame payload2; [];
     []].
Proof.
  unfold threeFrames. cbn [app].
  rewrite (split_line (dataFrame payload1))
    by (apply dataFrame_no_newline, valid1).
  rewrite split_sep_cons.
  rewrite (split_line (dataFrame malformed))
    by (apply dataFrame_no_newline, isMalformed).
  rewrite split_sep_cons.
  rewrite (split_line (dataFrame payload2))
    by (apply dataFrame_no_newline, valid2).
  reflexivity.
Qed.


End MalformedFrame.

Lemma no_newline_check (s : jsstring) :
  existsb (Z.eqb 10) s = false -> ~ In 10 s.
Proof.
  intros E I. assert (X : existsb (Z.eqb 10) s = true).
  { apply existsb_exists. exists 10. split; [exact I | reflexivity]. }
  congruence.
Qed.

Lemma endsLine_check (text : jsstring) :
  last text 0 = 10 -> text <> [] -> endsLine text.
Proof.
  intros L NE. right. exists (removelast text).
  rewrite <- L. now apply app_removelast_last.
Qed.


(** *** Chunk boundaries and the plain decoder *)

(** C3 on the code.  [processStreamResponse] splits each chunk into lines
    on its own and keeps nothing between reads: when a frame arrives in two
    chunks neither half is a frame, and the delta is lost, whereas the same
    bytes in one chunk yield it.  The cut may fall inside a line or inside a
    character.  [processEnhancedStreamResponse], which keeps a buffer,
    yields the delta in both deliveries. *)
Theorem plain_decoder_loses_frames_cut_by_chunks :
  let plain := @processStreamResponse ExamplePlatform.platform in
  let enhanced := @processEnhancedStreamResponse ExamplePlatform.platform in
  let bytes :=
    ExamplePlatform.ascii
      (ExamplePlatform.jsq "data: {'choices':[{'delta':{'content':'Hi'}}]}"
       ++ [10; 10]) in
  let '(front, back) := accentFrameBytes in
  plain [ReadValue bytes] = ([JStr (js "Hi")], None)
  /\ plain [ReadValue (firstn 20 bytes); ReadValue (skipn 20 bytes)] = ([], None)
  /\ enhanced [ReadValue bytes] = ([JStr (js "Hi")], None)
  /\ enhanced [ReadValue (firstn 20 bytes); ReadValue (skipn 20 bytes)]
     = ([JStr (js "Hi")], None)
  /\ plain [ReadValue (front ++ back)] = ([JStr [233]], None)
  /\ plain [ReadValue front; ReadValue back] = ([], None)
  /\ enhanced [ReadValue (front ++ back)] = ([JStr [233]], None)
  /\ enhanced [ReadValue front; ReadValue back] = ([JStr [233]], None).
Proof. cbv zeta. repeat split; vm_compute; reflexivity. Qed.

(* ================================================================== *)
(** ** The model on the inputs of the client's tests *)

Example js_literal : js "data: " = [100; 97; 116; 97; 58; 32].
Proof. reflexivity. Qed.

Example split_lines :
  split (js "a" ++ [10; 10] ++ js "b") 10 = [js "a"; []; js "b"]
  /\ split [] 10 = [[]].
Proof. split; reflexivity. Qed.

Example trim_line : trim ([32; 9] ++ js "data: x" ++ [13; 10]) = js "data: x".
Proof. reflexivity. Qed.

Example ofInt_values :
  ofInt 503 = js "503" /\ ofInt 0 = js "0" /\ ofInt (-5) = js "-5".
Proof. repeat split; reflexivity. Qed.

Example parseInt_values :
  parseInt (js "30") = Int 30 /\ parseInt (js " 5 seconds") = Int 5
  /\ parseInt (js "-7") = Int (-7)
  /\ parseInt (js "Wed, 21 Oct 2015 07:28:00 GMT") = NaN.
Proof. repeat split; reflexivity. Qed.

(** The decoder: a two-byte and a four-byte character cut between reads, a
    byte order mark at the start of the stream, an invalid byte. *)
Example decode_values :
  decodeEach Utf8.init [[Byte.x41; Byte.xc3]; [Byte.xa9; Byte.x42]]
  = [[65]; [233; 66]]
  /\ decodeEach Utf8.init [[Byte.xf0; Byte.x9f]; [Byte.x98]; [Byte.x80]]
     = [[]; []; [0xD83D; 0xDE00]]
  /\ decodeEach Utf8.init [[Byte.xef; Byte.xbb]; [Byte.xbf; Byte.x41]]
     = [[]; [65]]
  /\ decodeEach Utf8.init [[Byte.xc3; Byte.x41; Byte.xff]]
     = [[0xFFFD; 65; 0xFFFD]].
Proof. repeat split; reflexivity. Qed.

Example json_values :
  JsonReader.parse (ExamplePlatform.jsq "{'a':[1,-2.50e3,true,null],'b':'x\ny'}")
  = Some (JObj [(js "a", JArr [JNum 1 0; JNum (-250) 1; JBool true; JNull]);
                (js "b", JStr [120; 10; 121])])
  /\ JsonReader.parse (js "{invalid json}") = None
  /\ JsonReader.parse (js "[DONE]") = None
  /\ JsonReader.parse (js "01") = None
  /\ JsonReader.parse (js "[1,]") = None
  /\ JsonReader.parse [] = None.
Proof. repeat split; reflexivity. Qed.

Example truthy_values :
  truthy (JNum 0 0) = false /\ truthy (JNum 0 (-1)) = false
  /\ truthy (JNum 5 (-324)) = true /\ truthy (JNum 1 (-400)) = false
  /\ truthy (JStr []) = false /\ truthy (JArr []) = true.
Proof. repeat split; reflexivity. Qed.

(** The stream of the test "should emit streaming events for successful
    response": [start], two [chunk] events, [complete] with two chunks. *)
Example events_of_a_successful_stream :
  let frame text :=
    ReadValue (ExamplePlatform.ascii
      (ExamplePlatform.jsq
         ("data: {'choices':[{'delta':{'content':'" ++ text ++ "'}}]}")
       ++ [10; 10])) in
  let steps := [frame "Hello"; frame " world";
                ReadValue (ExamplePlatform.ascii (js "data: [DONE]" ++ [10; 10]))] in
  let env := ExamplePlatform.always
               (FetchResolves (ExamplePlatform.streamResponse steps)) in
  let events :=
    fst (@sendMessageStreamWithEvents ExamplePlatform.platform env
           ExamplePlatform.exampleConfig (js "Hello") None None initialWorld) in
  map ev_type events = [start; chunk; chunk; complete]
  /\ map ev_data events
     = [None; Some (JStr (js "Hello")); Some (JStr (js " world")); None]
  /\ map (fun e => match ev_metadata e with
                   | Some m => totalChunks m
                   | None => None
                   end) events
     = [Some 0%nat; None; None; Some 2%nat].
Proof. cbv zeta. repeat split; vm_compute; reflexivity. Qed.

(** The tests of the streaming error classification. *)
Example classifyStreamingError_values :
  let classified text :=
    let e := classifyStreamingError (newError (js text)) in
    (se_type e, recoverable e) in
  classified "Request was aborted" = (abortError, true)
  /\ classified "Request timeout while streaming" = (timeout, true)
  /\ classified "Network connection lost during streaming" = (connection, true)
  /\ classified "Failed to parse streaming response" = (parsing, false)
  /\ classified "Authentication failed: Invalid API key" = (connection, false).
Proof. cbv zeta. repeat split; vm_compute; reflexivity. Qed.

(* ================================================================== *)
(** * Further properties of the client *)

(** ** Validation and classification *)

Section ValidationRule.

Context `{Platform}.
Variable config : FastGPTConfig.


End ValidationRule.

(** X2. [parseErrorResponse] always records the status as [code]; it marks
    the response retryable exactly when the status is at least 500, or is
    429 or 408 with a body that parses as JSON. *)
Theorem parseErrorResponse_retryable_rule (response : Response) :
  code (parseErrorResponse response) = Some (status response)
  /\ (retryable (parseErrorResponse response) = Some true <->
      500 <= status response
      \/ ((status response = 429 \/ status response = 408)
          /\ exists data, json response = inr data)).
Proof.
  unfold parseErrorResponse.
  destruct (json response) as [e|data] eqn:J.
  - cbn. split; [reflexivity|]. split.
    + intros E. injection E as E. apply Z.leb_le in E. now left.
    + intros [L | [_ [d D]]]; [|discriminate].
      f_equal. now apply Z.leb_le.
  - set (s := status response).
    assert (D : forall P : Prop, P -> (exists d : JSValue, inr data = inr d :> Thrown + JSValue) /\ P)
      by (intros P p; split; [now exists data | exact p]).
    repeat match goal with
    | |- context [s =? ?k] =>
        let E := fresh "E" in
        destruct (s =? k) eqn:E;
        [apply Z.eqb_eq in E | apply Z.eqb_neq in E]
    end; cbn [orb];
    repeat match goal with
    | |- context [getMember data ?k] => destruct (getMember data k)
    end; cbn [code retryable];
    (split; [try reflexivity; congruence|]);
    (split; [intros R | intros R; f_equal]);
    try (injection R as R; try apply Z.leb_le in R);
    try discriminate; try lia; try (right; split; [lia | now exists data]);
    try (left; lia);
    try (apply Z.leb_le; destruct R as [R | [R _]]; lia);
    try (destruct R as [R | [R _]]; lia).
Qed.

(** X13. The text [getErrorMessage] shows is never empty: for the kinds
    [network], [authentication], [validation] and [server] it is a fixed
    sentence that does not depend on the error's message; for the kind
    [unknown] it is the error's message, or a fixed sentence when that
    message is empty. *)
Theorem getErrorMessage_is_never_empty (e : FastGPTApiError) :
  truthy (getErrorMessage e) = true
  /\ (type e <> unknown ->
      forall e', type e' = type e -> getErrorMessage e' = getErrorMessage e)
  /\ (type e = unknown -> truthy (message e) = true ->
      getErrorMessage e = message e).
Proof.
  unfold getErrorMessage, orElse. repeat split.
  - destruct (type e); try reflexivity.
    destruct (truthy (message e)) eqn:T; [exact T | reflexivity].
  - intros N e' E. rewrite E. destruct (type e); try reflexivity. congruence.
  - intros U T. now rewrite U, T.
Qed.

(* ================================================================== *)
(** ** What the retry executor does to the world *)

Section RetryLog.

Context `{Platform}.
Variable env : Env.
Variable config : FastGPTConfig.

(** The world after the loop: [k + 1] attempts with the same request, with
    [k] sleeps between them, for some [k] up to the number of retries. *)
Lemma retryLoop_log {T} (operation : M T) (request : Request)
    (options : RetryOptions) :
  fetchesOnce operation request ->
  forall remaining attempt w,
  exists k,
    (k <= remaining)%nat
    /\ fetches (snd (retryLoop env operation options remaining attempt w))
       = fetches w ++ repeat request (S k)
    /\ List.length
         (sleeps (snd (retryLoop env operation options remaining attempt w)))
       = (List.length (sleeps w) + k)%nat.
Proof.
  intros F. induction remaining as [|remaining IH]; intros attempt w.
  - exists 0%nat. cbn [retryLoop]. specialize (F w).
    destruct (operation w) as [[e|v] w1]; cbn [snd] in *; subst w1;
      cbn; repeat split; lia.
  - cbn [retryLoop]. pose proof (F w) as Fw.
    destruct (operation w) as [[e|v] w1]; cbn [snd] in Fw; subst w1.
    2:{ exists 0%nat. cbn. repeat split; lia. }
    destruct (isRetryableError e); cbn [negb].
    2:{ exists 0%nat. cbn. repeat split; lia. }
    destruct (calculateRetryDelay env attempt options e (fetched request w))
      as [delay w2] eqn:D.
    pose proof (calculateRetryDelay_world env attempt options e
                  (fetched request w)) as [W1 W2].
    rewrite D in W1, W2. cbn [snd] in W1, W2. cbn [sleep].
    match goal with |- context [retryLoop _ _ _ _ _ ?w3] =>
      destruct (IH (S attempt) w3) as [k [K [I1 I2]]] end.
    exists (S k). rewrite I1, I2. cbn [fetches sleeps]. rewrite W1, W2.
    cbn [fetched fetches]. rewrite length_app, <- app_assoc. cbn.
    repeat split; lia.
Qed.

Lemma completionOperation_fetchesOnce (request : Request) :
  fetchesOnce (completionOperation env request) request.
Proof.
  intros w. unfold completionOperation, fetch, bind, throwIfNotOk.
  destruct (net env (List.length (fetches w))) as [e|response]; [reflexivity|].
  destruct (ok response); cbn; [|reflexivity].
  destruct (json response) as [e|data]; [reflexivity|].
  destruct (messageCondition data) as [msg|]; [|reflexivity].
  now destruct (truthy msg).
Qed.

Lemma openStream_fetchesOnce (request : Request) :
  fetchesOnce (openStream env request) request.
Proof.
  intros w. unfold openStream, fetch, bind, throwIfNotOk.
  destruct (net env (List.length (fetches w))) as [e|response]; [reflexivity|].
  destruct (ok response); cbn; [|reflexivity].
  now destruct (body response).
Qed.

Lemma rethrowing_fetchesOnce {T} (operation : M T) (h : Thrown -> Thrown)
    (request : Request) :
  fetchesOnce operation request -> fetchesOnce (rethrowing operation h) request.
Proof.
  intros F w. unfold rethrowing. specialize (F w).
  now destruct (operation w) as [[e|v] w1].
Qed.

Lemma testOperation_fetchesOnce :
  fetchesOnce (testOperation env config) (testRequest env config).
Proof.
  intros w. unfold testOperation, fetch.
  destruct (net env (List.length (fetches w))) as [e|response]; [reflexivity|].
  destruct (ok response); [reflexivity|].
  now destruct (retryable (parseErrorResponse response)) as [[|]|].
Qed.

Lemma executeWithRetry_callLog {T} (operation : M T) (request : Request) :
  fetchesOnce operation request ->
  callLog request
    (snd (executeWithRetry env operation defaultRetryOptions initialWorld)).
Proof.
  intros F. right. unfold executeWithRetry.
  destruct (retryLoop_log operation request defaultRetryOptions F 3 0
              initialWorld) as [k [K [A B]]].
  exists k. repeat split; assumption.
Qed.

Lemma nonStreaming_callLog msgs chat vars :
  callLog (plainRequest config msgs chat vars)
          (snd (nonStreaming env config msgs chat vars initialWorld)).
Proof.
  unfold nonStreaming. destruct (validateConfig config).
  - left. split; reflexivity.
  - apply executeWithRetry_callLog, completionOperation_fetchesOnce.
Qed.

Lemma streamWithEvents_callLog (operation : M Body) (request : Request) :
  fetchesOnce operation request ->
  callLog request (snd (streamWithEvents env config operation initialWorld)).
Proof.
  intros F. unfold streamWithEvents. destruct (validateConfig config).
  - left. split; reflexivity.
  - pose proof (executeWithRetry_callLog operation request F) as L.
    destruct (executeWithRetry env operation defaultRetryOptions initialWorld)
      as [[e|b] w']; [exact L|].
    now destruct (processEnhancedStreamResponse b).
Qed.

Lemma plainStream_callLog (operation : M Body) (request : Request) :
  fetchesOnce operation request ->
  callLog request (snd (plainStream env config operation initialWorld)).
Proof.
  intros F. unfold plainStream. destruct (validateConfig config).
  - left. split; reflexivity.
  - pose proof (executeWithRetry_callLog operation request F) as L.
    now destruct (executeWithRetry env operation defaultRetryOptions
                    initialWorld) as [[e|b] w'].
Qed.

Lemma testConnection_callLog :
  callLog (testRequest env config) (snd (testConnection env config initialWorld)).
Proof.
  unfold testConnection, makeTestRequest. destruct (validateConfig config).
  - left. split; reflexivity.
  - pose proof (executeWithRetry_callLog _ _ testOperation_fetchesOnce) as L.
    destruct (executeWithRetry env (testOperation env config)
                defaultRetryOptions initialWorld) as [[e|[r|]] w'];
      cbn [snd] in *; try exact L.
    now destruct (instanceofTypeError e && errorMessageIncludes e (js "fetch")).
Qed.

Lemma callLog_counts (request : Request) (w : World) :
  callLog request w ->
  (List.length (fetches w) <= 4)%nat
  /\ List.length (sleeps w) = (List.length (fetches w) - 1)%nat
  /\ Forall (fun r => r = request) (fetches w).
Proof.
  intros [[F S] | [k [K [F S]]]]; rewrite F.
  - rewrite S. repeat split; cbn; [lia | constructor].
  - rewrite S, repeat_length. repeat split; try lia.
    apply Forall_forall. intros r I. now apply repeat_spec in I.
Qed.

End RetryLog.

Section PublicCalls.

Context `{Platform}.
Variable env : Env.
Variable config : FastGPTConfig.
Variables (text : jsstring) (history : list ChatMessage).
Variables (chat : option jsstring) (vars : option JSValue).

(** X3. Whatever the network does, each public call makes at most
    [maxRetries + 1 = 4] fetches, and sleeps exactly once between two
    consecutive fetches (never before the first or after the last). *)
Theorem calls_make_at_most_four_attempts :
  Forall (fun w => (List.length (fetches w) <= 4)%nat
                   /\ List.length (sleeps w) = (List.length (fetches w) - 1)%nat)
    [snd (sendMessage env config text chat vars initialWorld);
     snd (sendMessageWithHistory env config history chat vars initialWorld);
     snd (sendMessageStream env config text chat vars initialWorld);
     snd (sendMessageWithHistoryStream env config history chat vars initialWorld);
     snd (sendMessageStreamWithEvents env config text chat vars initialWorld);
     snd (sendMessageWithHistoryStreamWithEvents env config history chat vars
            initialWorld);
     snd (testConnection env config initialWorld)].
Proof.
  assert (C : forall request w, callLog request w ->
            (List.length (fetches w) <= 4)%nat
            /\ List.length (sleeps w) = (List.length (fetches w) - 1)%nat).
  { intros request w L. destruct (callLog_counts request w L) as [A [B _]].
    now split. }
  repeat (apply Forall_cons;
          [eapply C;
           first [ apply nonStreaming_callLog
                 | apply plainStream_callLog, openStream_fetchesOnce
                 | apply streamWithEvents_callLog, rethrowing_fetchesOnce,
                     openStream_fetchesOnce
                 | apply testConnection_callLog ]|]).
  apply Forall_nil.
Qed.

(** X15. Every fetch of a chat call, first attempt or retry, sends the same
    request: to the completions endpoint built from the base URL, with the
    API key as bearer token, [detail] off, [stream] on for the streaming
    calls and off for the others, and the caller's chat id, messages and
    variables.  The history calls send the role and content of each message
    of the history, in order. *)
Theorem every_attempt_sends_the_same_request :
  let user := [{| role := user; content := text |}] in
  let past := map (fun m => {| role := cm_role m; content := cm_content m |})
                  history in
  Forall (fun r => r = chatRequest config chat vars false user)
    (fetches (snd (sendMessage env config text chat vars initialWorld)))
  /\ Forall (fun r => r = chatRequest config chat vars false past)
       (fetches (snd (sendMessageWithHistory env config history chat vars
                        initialWorld)))
  /\ Forall (fun r => r = chatRequest config chat vars true user)
       (fetches (snd (sendMessageStream env config text chat vars initialWorld)))
  /\ Forall (fun r => r = chatRequest config chat vars true past)
       (fetches (snd (sendMessageWithHistoryStream env config history chat vars
                        initialWorld)))
  /\ Forall (fun r => r = chatRequest config chat vars true user)
       (fetches (snd (sendMessageStreamWithEvents env config text chat vars
                        initialWorld)))
  /\ Forall (fun r => r = chatRequest config chat vars true past)
       (fetches (snd (sendMessageWithHistoryStreamWithEvents env config history
                        chat vars initialWorld))).
Proof.
  cbv zeta.
  repeat split;
    match goal with
    | |- Forall _ (fetches ?w) =>
        refine (proj2 (proj2 (callLog_counts _ w _)))
    end;
    first [ apply nonStreaming_callLog
          | apply plainStream_callLog, openStream_fetchesOnce
          | apply streamWithEvents_callLog, rethrowing_fetchesOnce,
              openStream_fetchesOnce ].
Qed.

End PublicCalls.

(* ================================================================== *)
(** ** Delays *)

Section DelayWindow.

Variable env : Env.


End DelayWindow.


(* ================================================================== *)
(** ** Outcomes of the retried calls *)

Section Recovery.

Context `{Platform}.
Variable env : Env.
Variable config : FastGPTConfig.
Variable transient : Thrown.
Variable response : Response.
Variables (data msg : JSValue).

Hypothesis retryableError : isRetryableError transient = true.
Hypothesis isOk : ok response = true.
Hypothesis parsed : json response = inr data.
Hypothesis hasMessage : messageCondition data = Some msg.
Hypothesis messageTruthy : truthy msg = true.

Lemma retryLoop_recovers (request : Request) (options : RetryOptions)
    (k : nat) :
  forall remaining attempt w,
    (k <= remaining)%nat ->
    (forall n, (n < k)%nat ->
       net env (List.length (fetches w) + n) = FetchRejects transient) ->
    net env (List.length (fetches w) + k) = FetchResolves response ->
    let r := retryLoop env (completionOperation env request) options remaining
               attempt w in
    fst r = inr (memberOr msg "content")
    /\ List.length (fetches (snd r)) = (List.length (fetches w) + k + 1)%nat
    /\ List.length (sleeps (snd r)) = (List.length (sleeps w) + k)%nat.
Proof.
  induction k as [|k IH]; intros remaining attempt w K F Ok; cbv zeta.
  - rewrite Nat.add_0_r in Ok.
    assert (E : completionOperation env request w
                = (inr (memberOr msg "content"), fetched request w)).
    { unfold completionOperation, fetch. rewrite Ok.
      unfold bind, throwIfNotOk. rewrite isOk. cbn.
      now rewrite parsed, hasMessage, messageTruthy. }
    destruct remaining; cbn [retryLoop]; rewrite E; cbn;
      rewrite length_app; cbn; repeat split; lia.
  - destruct remaining as [|remaining]; [lia|].
    assert (E : completionOperation env request w
                = (inl transient, fetched request w)).
    { pose proof (F 0%nat ltac:(lia)) as F0. rewrite Nat.add_0_r in F0.
      unfold completionOperation, fetch. now rewrite F0. }
    cbn [retryLoop]. rewrite E, retryableError. cbn [negb].
    destruct (calculateRetryDelay env attempt options transient
                (fetched request w)) as [delay w2] eqn:D.
    pose proof (calculateRetryDelay_world env attempt options transient
                  (fetched request w)) as [W1 W2].
    rewrite D in W1, W2. cbn [snd fetched fetches sleeps] in W1, W2.
    cbn [sleep]. rewrite W1, W2.
    match goal with |- context [retryLoop _ _ _ _ _ ?w3] =>
      specialize (IH remaining (S attempt) w3) end.
    cbn [fetches sleeps] in IH.
    rewrite !length_app in IH. cbn [List.length] in IH.
    destruct IH as [I1 [I2 I3]].
    + lia.
    + intros n N. replace (List.length (fetches w) + 1 + n)%nat
        with (List.length (fetches w) + S n)%nat by lia. apply F. lia.
    + replace (List.length (fetches w) + 1 + k)%nat
        with (List.length (fetches w) + S k)%nat by lia. exact Ok.
    + rewrite I1, I2, I3. repeat split; lia.
Qed.

(** X4. When the first [k <= 3] fetches of [sendMessage] are rejected with
    an error the executor takes for retryable and the next one is answered
    with a completion, the call returns the content of the first choice
    after [k + 1] fetches and [k] sleeps. *)
Theorem sendMessage_recovers_after_transient_failures
    (text : jsstring) (chat : option jsstring) (vars : option JSValue)
    (k : nat) :
  validateConfig config = None ->
  (k <= 3)%nat ->
  (forall n, (n < k)%nat -> net env n = FetchRejects transient) ->
  net env k = FetchResolves response ->
  let sent := sendMessage env config text chat vars initialWorld in
  fst sent = inr (memberOr msg "content")
  /\ List.length (fetches (snd sent)) = (k + 1)%nat
  /\ List.length (sleeps (snd sent)) = k.
Proof.
  intros V K F S. cbv zeta.
  unfold sendMessage, nonStreaming, executeWithRetry. rewrite V.
  exact (retryLoop_recovers _ defaultRetryOptions k 3 0 initialWorld K F S).
Qed.

End Recovery.

(** The client's test "should retry on network errors": two rejected
    fetches, then a completion. *)
Lemma sendMessage_recovers_witness :
  let failed := ErrorObject true (js "TypeError") (js "Failed to fetch") in
  let completion :=
    JObj [(js "id", JStr (js "test"));
          (js "choices",
           JArr [JObj [(js "message",
                        JObj [(js "content", JStr (js "success"))])]])] in
  let response :=
    {| ok := true; status := 200; statusText := js "OK";
       retryAfterHeader := None; json := inr completion; body := None |} in
  let env :=
    {| net := fun n => if (n <? 2)%nat then FetchRejects failed
                       else FetchResolves response;
       random := fun _ => 1 # 2; now := 0; freshMessageId := js "msg" |} in
  let sent := @sendMessage ExamplePlatform.platform env
                ExamplePlatform.exampleConfig (js "Hello") None None
                initialWorld in
  isRetryableError failed = true
  /\ fst sent = inr (JStr (js "success"))
  /\ List.length (fetches (snd sent)) = 3%nat
  /\ List.length (sleeps (snd sent)) = 2%nat.
Proof.
  cbv zeta. split; [reflexivity|].
  pose (completion :=
    JObj [(js "id", JStr (js "test"));
          (js "choices",
           JArr [JObj [(js "message",
                        JObj [(js "content", JStr (js "success"))])]])]).
  pose (response :=
    {| ok := true; status := 200; statusText := js "OK";
       retryAfterHeader := None; json := inr completion; body := None |}).
  pose (failed := ErrorObject true (js "TypeError") (js "Failed to fetch")).
  pose (env :=
    {| net := fun n => if (n <? 2)%nat then FetchRejects failed
                       else FetchResolves response;
       random := fun _ => 1 # 2; now := 0; freshMessageId := js "msg" |}).
  refine (@sendMessage_recovers_after_transient_failures
            ExamplePlatform.platform env ExamplePlatform.exampleConfig
            failed
            response completion (JObj [(js "content", JStr (js "success"))])
            eq_refl eq_refl eq_refl eq_refl eq_refl (js "Hello") None None 2
            eq_refl _ _ eq_refl).
  - lia.
  - intros [|[|n]] N; [reflexivity | reflexivity | lia].
Defined.

Section Rejected.

Context `{Platform}.
Variable env : Env.
Variable config : FastGPTConfig.
Variable response : Response.

Hypothesis valid : validateConfig config = None.
Hypothesis persistent : forall n, net env n = FetchResolves response.
Hypothesis notOk : ok response = false.

(** X5. A request the service rejects is not sent again.  For a status 401,
    403 or 404 with a body that parses as JSON, [sendMessage] throws the
    classified message after one fetch, without sleeping.  For every
    response the classifier does not mark retryable, [testConnection]
    reports the failure, with the classified kind as details, after one
    fetch, without sleeping. *)
Theorem rejected_request_is_not_retried
    (text : jsstring) (chat : option jsstring) (vars : option JSValue) :
  let classified := parseErrorResponse response in
  let sent := sendMessage env config text chat vars initialWorld in
  let tested := testConnection env config initialWorld in
  ((status response = 401 \/ status response = 403 \/ status response = 404) ->
   (exists data, json response = inr data) ->
   fst sent = inl (newErrorOf (message classified))
   /\ List.length (fetches (snd sent)) = 1%nat
   /\ sleeps (snd sent) = [])
  /\ (retryable classified = Some false ->
      success (fst tested) = false
      /\ details (fst tested) = Some (JStr (typeName (type classified)))
      /\ List.length (fetches (snd tested)) = 1%nat
      /\ sleeps (snd tested) = []).
Proof.
  cbv zeta. split.
  - intros S [data J].
    assert (N : isRetryableError
                  (newErrorOf (message (parseErrorResponse response))) = false).
    { unfold parseErrorResponse. rewrite J.
      destruct S as [S | [S | S]]; rewrite S; reflexivity. }
    unfold sendMessage, nonStreaming, executeWithRetry. rewrite valid.
    destruct (retryLoop_not_retryable env _ defaultRetryOptions _ 3 0
                initialWorld
                (completionOperation_fails env response persistent notOk
                   (plainRequest config (userMessage text) chat vars)) N)
      as [A [B C]].
    repeat split; assumption.
  - intros R.
    assert (E : testOperation env config initialWorld
                = (inr (Some (parseErrorResponse response)),
                   fetched (testRequest env config) initialWorld)).
    { unfold testOperation, fetch. now rewrite persistent, notOk, R. }
    unfold testConnection, makeTestRequest, executeWithRetry.
    rewrite valid. cbn [maxRetries defaultRetryOptions retryLoop].
    rewrite E. repeat split.
Qed.

End Rejected.

Lemma rejected_request_witness :
  let response :=
    ExamplePlatform.errorResponse 401 "Unauthorized" None
      (inr (JObj [(js "message", JStr (js "Invalid API key"))])) in
  let env := ExamplePlatform.always (FetchResolves response) in
  let sent := @sendMessage ExamplePlatform.platform env
                ExamplePlatform.exampleConfig (js "Hello") None None
                initialWorld in
  fst sent = inl (newError (js "Authentication failed: Invalid API key"))
  /\ List.length (fetches (snd sent)) = 1%nat
  /\ sleeps (snd sent) = [].
Proof.
  cbv zeta.
  pose (response :=
    ExamplePlatform.errorResponse 401 "Unauthorized" None
      (inr (JObj [(js "message", JStr (js "Invalid API key"))]))).
  exact (proj1 (@rejected_request_is_not_retried ExamplePlatform.platform
                  (ExamplePlatform.always (FetchResolves response))
                  ExamplePlatform.exampleConfig response eq_refl
                  (fun n => eq_refl) eq_refl (js "Hello") None None)
               (or_introl eq_refl) (ex_intro _ _ eq_refl)).
Defined.

Section Unsent.

Context `{Platform}.
Variable env : Env.
Variable config : FastGPTConfig.

Lemma validateConfig_message (validationError : FastGPTApiError) :
  validateConfig config = Some validationError ->
  exists text, message validationError = JStr text.
Proof.
  unfold validateConfig.
  repeat match goal with
  | |- context [if ?c then _ else _] => destruct c
  | |- context [match URL_protocol ?u with _ => _ end] =>
      destruct (URL_protocol u)
  end; intros E; try discriminate; injection E as <-; eexists; reflexivity.
Qed.

(** X14. With a configuration that fails validation no call reaches the
    network: [sendMessage], [sendMessageWithHistory] and the two plain
    streaming calls throw an [Error] whose message is the validation
    message, [testConnection] reports it with the details "Configuration
    validation failed", and the world is left as it was. *)
Theorem invalid_configuration_is_never_sent
    (text : jsstring) (history : list ChatMessage) (chat : option jsstring)
    (vars : option JSValue) (w : World) :
  failsValidation config ->
  exists msg,
    option_map message (validateConfig config) = Some (JStr msg)
    /\ sendMessage env config text chat vars w = (inl (newError msg), w)
    /\ sendMessageWithHistory env config history chat vars w
       = (inl (newError msg), w)
    /\ sendMessageStream env config text chat vars w
       = (([], Some (newError msg)), w)
    /\ sendMessageWithHistoryStream env config history chat vars w
       = (([], Some (newError msg)), w)
    /\ testConnection env config w
       = ({| success := false; ctr_error := Some (JStr msg);
             details := Some (JStr (js "Configuration validation failed")) |},
          w).
Proof.
  intros F. destruct (validateConfig_fails config F) as [e [E _]].
  destruct (validateConfig_message e E) as [msg M]. exists msg.
  unfold sendMessage, sendMessageWithHistory, nonStreaming, sendMessageStream,
    sendMessageWithHistoryStream, plainStream, testConnection.
  rewrite E. cbn [option_map]. rewrite M. repeat split.
Qed.

End Unsent.

Lemma invalid_configuration_witness :
  let config := {| baseUrl := js "https://fastgpt.io"; appId := js "app";
                   apiKey := [] |} in
  let env := ExamplePlatform.always (FetchRejects NotAnError) in
  @failsValidation ExamplePlatform.platform config
  /\ @sendMessage ExamplePlatform.platform env config (js "Hello") None None
       initialWorld
     = (inl (newError (js "API Key is required")), initialWorld).
Proof.
  cbv zeta.
  assert (F : @failsValidation ExamplePlatform.platform
                {| baseUrl := js "https://fastgpt.io"; appId := js "app";
                   apiKey := [] |}) by (right; right; left; reflexivity).
  split; [exact F|].
  destruct (@invalid_configuration_is_never_sent ExamplePlatform.platform
              (ExamplePlatform.always (FetchRejects NotAnError)) _
              (js "Hello") [] None None initialWorld F)
    as [msg [V [S _]]].
  rewrite S. vm_compute in V. injection V as <-. reflexivity.
Defined.

(* ================================================================== *)
(** ** The enhanced decoder, line by line *)

Section EnhancedLines.

Context `{Platform}.

(** The remainder of the buffer is handled as a line is. *)
Lemma enhancedRemainder_line (buffer : jsstring) :
  enhancedRemainder buffer = enhancedLine buffer.
Proof.
  unfold enhancedRemainder, enhancedLine.
  destruct (trim buffer) as [|c t] eqn:T; [reflexivity|].
  cbn [nonEmpty]. replace (JsString.eqb (c :: t) []) with false by reflexivity.
  cbn [orb].
  destruct (JsString.eqb (c :: t) (js "data: [DONE]")), (startsWith (c :: t) (js "data: "));
    reflexivity.
Qed.

Lemma flat_map_removelast_last {A B} (f : A -> list B) (l : list A) (d : A) :
  l <> [] -> flat_map f (removelast l) ++ f (last l d) = flat_map f l.
Proof.
  intros NE. rewrite (app_removelast_last d NE) at 3.
  rewrite flat_map_app. cbn. now rewrite app_nil_r.
Qed.

(** X8. On a stream that delivers its chunks and ends, the enhanced decoder
    yields exactly the deltas of the lines of the whole decoded text, in
    order, the text after the last line end counting as a line; the
    generator ends without error. *)
Theorem enhanced_decoder_reads_the_lines_of_the_text (chunks : list (list byte)) :
  processEnhancedStreamResponse (map ReadValue chunks)
  = (flat_map enhancedLine
       (split (snd (Utf8.decode Utf8.init (List.concat chunks))) 10), None).
Proof.
  unfold processEnhancedStreamResponse.
  rewrite enhancedLoop_whole_text by (intros []). cbv zeta. cbn [app].
  rewrite enhancedRemainder_line, flat_map_removelast_last;
    [reflexivity | apply split_nonempty].
Qed.

(** The loop on chunks followed by a step at which it throws. *)
Lemma enhancedLoop_stopped (stop : ReadStep) (e : Thrown) (rest : Body) :
  (forall decoder buffer,
     enhancedLoop decoder buffer (stop :: rest) = ([], Some e)) ->
  forall chunks decoder buffer,
    ~ In 10 buffer ->
    enhancedLoop decoder buffer (map ReadValue chunks ++ stop :: rest)
    = (flat_map enhancedLine
         (removelast
            (split (buffer ++ snd (Utf8.decode decoder (List.concat chunks))) 10)),
       Some e).
Proof.
  intros Stop. induction chunks as [|value chunks IH]; intros decoder buffer NB.
  - cbn [map app List.concat Utf8.decode snd]. rewrite Stop, app_nil_r.
    now rewrite (split_no_sep _ _ NB).
  - cbn [map app enhancedLoop List.concat]. rewrite decode_app.
    destruct (Utf8.decode decoder value) as [d1 t1].
    rewrite (IH d1 _ (last_split_no_sep _ _)).
    destruct (Utf8.decode d1 (List.concat chunks)) as [d2 t2]. cbn [snd].
    rewrite (app_assoc buffer t1 t2), (split_app (buffer ++ t1) t2).
    rewrite (removelast_app _ (split_nonempty _ _)), flat_map_app.
    reflexivity.
Qed.

(** X10. When the abort signal is found set before a read, the enhanced
    decoder has yielded the deltas of the complete lines received so far
    and nothing of the unfinished line; it throws "Stream was aborted",
    which the event wrapper classifies as a recoverable [abort] error.
    Whatever the stream would have delivered afterwards is not read.  A
    read rejected with an [AbortError] ends the stream the same way. *)
Theorem abort_stops_the_enhanced_decoder (chunks : list (list byte))
    (rest : Body) (e : Thrown) :
  let yielded :=
    flat_map enhancedLine
      (removelast (split (snd (Utf8.decode Utf8.init (List.concat chunks))) 10)) in
  let aborted := newError (js "Stream was aborted") in
  processEnhancedStreamResponse (map ReadValue chunks ++ SignalAborted :: rest)
  = (yielded, Some aborted)
  /\ (isAbortError e = true ->
      processEnhancedStreamResponse
        (map ReadValue chunks ++ ReadRejects e :: rest)
      = (yielded, Some aborted))
  /\ classifyStreamingError aborted
     = {| se_type := abortError;
          se_message := JStr (js "Request was cancelled or timed out");
          recoverable := true |}.
Proof.
  cbv zeta. unfold processEnhancedStreamResponse. repeat split.
  - rewrite (enhancedLoop_stopped SignalAborted
               (newError (js "Stream was aborted")) rest);
      [reflexivity | reflexivity | intros []].
  - intros A.
    rewrite (enhancedLoop_stopped (ReadRejects e)
               (newError (js "Stream was aborted")) rest);
      [reflexivity | | intros []].
    intros decoder buffer. cbn [enhancedLoop]. unfold enhancedCatch.
    now rewrite A.
Qed.

End EnhancedLines.

(** X9. The deltas the enhanced decoder yields depend on the bytes of the
    stream only, not on how they are cut into chunks: two deliveries of the
    same byte sequence, also when a cut falls inside a line or inside a
    character, yield the same deltas in the same order. *)
Theorem enhanced_decoder_ignores_chunk_boundaries `{Platform}
    (chunks1 chunks2 : list (list byte)) :
  List.concat chunks1 = List.concat chunks2 ->
  processEnhancedStreamResponse (map ReadValue chunks1)
  = processEnhancedStreamResponse (map ReadValue chunks2).
Proof.
  intros E. unfold processEnhancedStreamResponse.
  rewrite !enhancedLoop_whole_text by (intros []). cbv zeta. now rewrite E.
Qed.

Lemma enhanced_decoder_chunk_witness :
  let bytes :=
    ExamplePlatform.ascii
      (ExamplePlatform.jsq "data: {'choices':[{'delta':{'content':'Hi'}}]}"
       ++ [10; 10]) in
  List.concat [firstn 20 bytes; skipn 20 bytes] = List.concat [bytes]
  /\ @processEnhancedStreamResponse ExamplePlatform.platform
       (map ReadValue [firstn 20 bytes; skipn 20 bytes])
     = @processEnhancedStreamResponse ExamplePlatform.platform
         (map ReadValue [bytes]).
Proof.
  cbv zeta.
  match goal with |- ?E /\ _ => assert (HE : E) by (vm_compute; reflexivity) end.
  split; [exact HE|].
  exact (@enhanced_decoder_ignores_chunk_boundaries ExamplePlatform.platform
           _ _ HE).
Defined.

(* ================================================================== *)
(** ** Events *)

Section EventIndexes.

Context `{Platform}.
Variable env : Env.
Variable config : FastGPTConfig.

Lemma chunkEvents_chunks (id : jsstring) (yields : list JSValue) :
  forall k,
    filter isChunkEvent (chunkEvents id k yields) = chunkEvents id k yields
    /\ List.length (chunkEvents id k yields) = List.length yields
    /\ chunkIndexes (chunkEvents id k yields)
       = map Some (seq (S k) (List.length yields))
    /\ map ev_data (chunkEvents id k yields) = map Some yields.
Proof.
  unfold chunkIndexes.
  induction yields as [|d rest IH]; intros k; [repeat split|].
  destruct (IH (S k)) as [A [B [C D]]].
  cbn [chunkEvents filter isChunkEvent chunkEvent ev_type List.length map seq].
  rewrite A in *. cbn [ev_metadata currentChunk ev_data map].
  rewrite B, C, D. repeat split.
Qed.

Lemma streamWithEvents_indexes (operation : M Body) (w : World) :
  let events := fst (streamWithEvents env config operation w) in
  let n := List.length (filter isChunkEvent events) in
  chunkIndexes events = map Some (seq 1 n)
  /\ forall terminal,
       In terminal events -> isTerminal terminal = true ->
       match ev_metadata terminal with
       | Some m =>
           currentChunk m = Some n
           /\ (ev_type terminal = complete -> totalChunks m = Some n)
       | None => ev_type terminal = error /\ events = [terminal]
       end.
Proof.
  cbv zeta. unfold streamWithEvents.
  destruct (validateConfig config) as [validationError|].
  - cbn. split; [reflexivity|]. intros t [<- | []] _. now split.
  - destruct (executeWithRetry env operation defaultRetryOptions w)
      as [[e|body] w'].
    + cbn. split; [reflexivity|].
      intros t [<- | [<- | []]] T; [discriminate|]. cbn. split; [reflexivity|].
      discriminate.
    + destruct (processEnhancedStreamResponse body) as [yields outcome].
      cbn [fst].
      destruct (chunkEvents_chunks (freshMessageId env) yields 0)
        as [A [B [C D]]].
      assert (F : filter isChunkEvent
                    (startEvent (freshMessageId env)
                       :: chunkEvents (freshMessageId env) 0 yields
                       ++ [match outcome with
                           | Some e => errorEvent (freshMessageId env)
                                         (List.length yields) e
                           | None => completeEvent (freshMessageId env)
                                       (List.length yields)
                           end])
                  = chunkEvents (freshMessageId env) 0 yields).
      { cbn [filter isChunkEvent startEvent ev_type].
        rewrite filter_app, A. destruct outcome; cbn; apply app_nil_r. }
      unfold chunkIndexes in *. rewrite A in C. rewrite F, B. split; [exact C|].
      intros t [<- | I] T; [discriminate|].
      apply in_app_or in I as [I | [<- | []]].
      * pose proof (chunkEvents_not_terminal (freshMessageId env) yields 0) as N.
        rewrite Forall_forall in N. rewrite (N _ I) in T. discriminate.
      * destruct outcome; cbn; split; try reflexivity; discriminate.
Qed.

(** X7. In the events of an exchange the [chunk] events carry the running
    indexes 1, 2, .., n in order; the terminal event carries n, the number
    of [chunk] events yielded before it, as [currentChunk], and a
    [complete] event carries it as [totalChunks] too.  Only the error event
    of a failed validation, which is then the only event, has no metadata. *)
Theorem chunk_events_are_numbered
    (text : jsstring) (history : list ChatMessage) (chat : option jsstring)
    (vars : option JSValue) (w : World) :
  Forall (fun events =>
    let n := List.length (filter isChunkEvent events) in
    chunkIndexes events = map Some (seq 1 n)
    /\ forall terminal,
         In terminal events -> isTerminal terminal = true ->
         match ev_metadata terminal with
         | Some m =>
             currentChunk m = Some n
             /\ (ev_type terminal = complete -> totalChunks m = Some n)
         | None => ev_type terminal = error /\ events = [terminal]
         end)
    [fst (sendMessageStreamWithEvents env config text chat vars w);
     fst (sendMessageWithHistoryStreamWithEvents env config history chat vars w)].
Proof.
  repeat (apply Forall_cons; [apply streamWithEvents_indexes|]).
  apply Forall_nil.
Qed.

End EventIndexes.

Section HttpErrorEvents.

Context `{Platform}.
Variable env : Env.
Variable config : FastGPTConfig.
Variable response : Response.
Variable data : JSValue.

Hypothesis valid : validateConfig config = None.
Hypothesis persistent : forall n, net env n = FetchResolves response.
Hypothesis notOk : ok response = false.
Hypothesis parsed : json response = inr data.

Lemma rethrowing_fails {T} (operation : M T) (h : Thrown -> Thrown) (e : Thrown) :
  failsEachTime operation e -> failsEachTime (rethrowing operation h) (h e).
Proof.
  intros F w. destruct (F w) as [request E]. exists request.
  unfold rethrowing. now rewrite E.
Qed.

(** The events of an exchange whose every attempt is answered by the error
    response, when the classifier builds the message [msg]. *)
Lemma error_response_events (operation : M Body) (msg : jsstring) :
  failsEachTime operation (newError msg) ->
  message (parseErrorResponse response) = JStr msg ->
  let r := streamWithEvents env config operation initialWorld in
  fst r = [startEvent (freshMessageId env);
           errorEvent (freshMessageId env) 0 (newError msg)]
  /\ List.length (fetches (snd r))
     = if isRetryableError (newError msg) then 4%nat else 1%nat.
Proof.
  intros F M. cbv zeta. unfold streamWithEvents, executeWithRetry.
  rewrite valid. cbn [maxRetries defaultRetryOptions].
  destruct (isRetryableError (newError msg)) eqn:R.
  - destruct (retryLoop_retryable env operation defaultRetryOptions
                (newError msg) 3 F R 0%nat initialWorld) as [A [B _]].
    destruct (retryLoop env operation defaultRetryOptions 3 0 initialWorld)
      as [[e|b] w']; cbn [fst snd] in *; [|discriminate].
    injection A as ->. split; [reflexivity | exact B].
  - destruct (retryLoop_not_retryable env operation defaultRetryOptions
                (newError msg) 3 0 initialWorld F R) as [A [B _]].
    destruct (retryLoop env operation defaultRetryOptions 3 0 initialWorld)
      as [[e|b] w']; cbn [fst snd] in *; [|discriminate].
    injection A as ->. split; [reflexivity | exact B].
Qed.

Lemma enhanced_open_fails (request : Request) (msg : jsstring) :
  message (parseErrorResponse response) = JStr msg ->
  failsEachTime (rethrowing (openStream env request) abortCatch) (newError msg).
Proof.
  intros M.
  pose proof (rethrowing_fails _ abortCatch _
                (openStream_fails env response persistent notOk request)) as F.
  rewrite M in F. exact F.
Qed.

(** X16. How HTTP error statuses reach the caller of
    [sendMessageStreamWithEvents] when the body parses as JSON: the events
    are [start] and one [error] event with chunk index 0.  For 401 and 403
    the error is a [connection] error that is not recoverable, after one
    fetch; for 404 it is a recoverable [connection] error, after one fetch;
    for 408 it is a [timeout] error, and for 429, 500, 502, 503 and 504 a
    recoverable [connection] error, each after four fetches.  The
    [connection] errors carry the classifier's message. *)
Theorem http_error_statuses_as_events
    (text : jsstring) (chat : option jsstring) (vars : option JSValue) :
  let r := sendMessageStreamWithEvents env config text chat vars initialWorld in
  let failure kind recoverability :=
    [startEvent (freshMessageId env);
     {| ev_type := error; ev_data := None;
        ev_error := Some {| se_type := kind;
                            se_message := message (parseErrorResponse response);
                            recoverable := recoverability |};
        ev_metadata := Some {| messageId := Some (freshMessageId env);
                               totalChunks := None;
                               currentChunk := Some 0%nat |} |}] in
  (In (status response) [401; 403] ->
   fst r = failure connection false
   /\ List.length (fetches (snd r)) = 1%nat)
  /\ (status response = 404 ->
      fst r = failure connection true
      /\ List.length (fetches (snd r)) = 1%nat)
  /\ (In (status response) [429; 500; 502; 503; 504] ->
      fst r = failure connection true
      /\ List.length (fetches (snd r)) = 4%nat)
  /\ (status response = 408 ->
      map ev_type (fst r) = [start; error]
      /\ option_map se_type (ev_error (last (fst r) (startEvent []))) = Some timeout
      /\ option_map recoverable (ev_error (last (fst r) (startEvent [])))
         = Some true
      /\ List.length (fetches (snd r)) = 4%nat).
Proof.
  cbv zeta.
  assert (E : forall msg : string,
            message (parseErrorResponse response) = JStr (js msg) ->
            let r := sendMessageStreamWithEvents env config text chat vars
                       initialWorld in
            fst r = [startEvent (freshMessageId env);
                     errorEvent (freshMessageId env) 0 (newError (js msg))]
            /\ List.length (fetches (snd r))
               = if isRetryableError (newError (js msg)) then 4%nat else 1%nat).
  { intros msg M. apply error_response_events; [|exact M].
    now apply enhanced_open_fails. }
  cbv zeta in E.
  assert (M : forall (code : Z) (msg : string),
            status response = code ->
            (let s := code in
             if s =? 401 then Some "Authentication failed: Invalid API key"
             else if s =? 403
             then Some "Access forbidden: Check your API key permissions"
             else if s =? 404
             then Some "API endpoint not found: Check your Base URL"
             else if s =? 429 then Some "Rate limit exceeded: Too many requests"
             else if (s =? 500) || (s =? 502) || (s =? 503) || (s =? 504)
             then Some "Server error: FastGPT service is temporarily unavailable"
             else if s =? 408
             then Some "Request timeout: The server took too long to respond"
             else None) = Some msg ->
            message (parseErrorResponse response) = JStr (js msg)).
  { intros code msg S. unfold parseErrorResponse. rewrite parsed, S. cbv zeta.
    repeat match goal with
    | |- context [code =? ?k] => destruct (code =? k) eqn:?
    end; cbn [orb]; intros Q; try discriminate;
    repeat match goal with
    | B : (_ =? _) = true |- _ => apply Z.eqb_eq in B
    end; try lia; injection Q as <-; reflexivity. }
  split; [|split; [|split]]; intros S; cbn [In] in S;
    repeat match type of S with _ \/ _ => destruct S as [S | S] end;
    try contradiction; symmetry in S || idtac;
    match type of S with
    | status response = ?c =>
        let m := eval cbv in
          (if c =? 401 then "Authentication failed: Invalid API key"
           else if c =? 403
           then "Access forbidden: Check your API key permissions"
           else if c =? 404
           then "API endpoint not found: Check your Base URL"
           else if c =? 429 then "Rate limit exceeded: Too many requests"
           else if c =? 408
           then "Request timeout: The server took too long to respond"
           else "Server error: FastGPT service is temporarily unavailable") in
        pose proof (M c m S eq_refl) as Q;
        destruct (E m Q) as [A B]; rewrite A, B, Q
    | ?c = status response =>
        symmetry in S;
        let m := eval cbv in
          (if c =? 401 then "Authentication failed: Invalid API key"
           else if c =? 403
           then "Access forbidden: Check your API key permissions"
           else if c =? 404
           then "API endpoint not found: Check your Base URL"
           else if c =? 429 then "Rate limit exceeded: Too many requests"
           else if c =? 408
           then "Request timeout: The server took too long to respond"
           else "Server error: FastGPT service is temporarily unavailable") in
        pose proof (M c m S eq_refl) as Q;
        destruct (E m Q) as [A B]; rewrite A, B, ?Q
    end; repeat split.
Qed.

End HttpErrorEvents.

(** The client's test "should emit error event for API errors". *)
Lemma http_error_events_witness :
  let response :=
    ExamplePlatform.errorResponse 401 "Unauthorized" None
      (inr (JObj [(js "message", JStr (js "Invalid API key"))])) in
  let env := ExamplePlatform.always (FetchResolves response) in
  let r := @sendMessageStreamWithEvents ExamplePlatform.platform env
             ExamplePlatform.exampleConfig (js "Hello") None None initialWorld in
  map ev_type (fst r) = [start; error]
  /\ map ev_error (fst r)
     = [None;
        Some {| se_type := connection;
                se_message := JStr (js "Authentication failed: Invalid API key");
                recoverable := false |}]
  /\ List.length (fetches (snd r)) = 1%nat.
Proof.
  cbv zeta.
  pose (response :=
    ExamplePlatform.errorResponse 401 "Unauthorized" None
      (inr (JObj [(js "message", JStr (js "Invalid API key"))]))).
  destruct (proj1 (@http_error_statuses_as_events ExamplePlatform.platform
                     (ExamplePlatform.always (FetchResolves response))
                     ExamplePlatform.exampleConfig response _ eq_refl
                     (fun n => eq_refl) eq_refl eq_refl (js "Hello") None None)
                  (or_introl eq_refl)) as [A B].
  fold response. rewrite A, B. repeat split.
Defined.

Section Cancellation.

Context `{Platform}.
Variable env : Env.
Variable config : FastGPTConfig.
Variable cancelled : Thrown.

Hypothesis valid : validateConfig config = None.
Hypothesis isAbort : isAbortError cancelled = true.
Hypothesis rejected : net env 0 = FetchRejects cancelled.

(** X17. A fetch that is cancelled (rejected with an [AbortError], by the
    timeout or by the caller's signal) is not retried by the event-emitting
    calls: after that one fetch, without sleeping, the exchange ends with
    [start] followed by one recoverable [abort] error event. *)
Theorem cancelled_fetch_is_not_retried
    (text : jsstring) (history : list ChatMessage) (chat : option jsstring)
    (vars : option JSValue) :
  let events :=
    [startEvent (freshMessageId env);
     {| ev_type := error; ev_data := None;
        ev_error :=
          Some {| se_type := abortError;
                  se_message := JStr (js "Request was cancelled or timed out");
                  recoverable := true |};
        ev_metadata := Some {| messageId := Some (freshMessageId env);
                               totalChunks := None;
                               currentChunk := Some 0%nat |} |}] in
  sendMessageStreamWithEvents env config text chat vars initialWorld
  = (events,
     fetched (chatRequest config chat vars true (userMessage text)) initialWorld)
  /\ sendMessageWithHistoryStreamWithEvents env config history chat vars
       initialWorld
     = (events,
        fetched (chatRequest config chat vars true (apiMessages history))
                initialWorld).
Proof.
  cbv zeta.
  assert (E : forall request,
            rethrowing (openStream env request) abortCatch initialWorld
            = (inl (newError (js "Request was aborted")),
               fetched request initialWorld)).
  { intros request. unfold rethrowing, openStream, fetch.
    change (List.length (fetches initialWorld)) with 0%nat.
    rewrite rejected. unfold abortCatch. now rewrite isAbort. }
  unfold sendMessageStreamWithEvents, sendMessageWithHistoryStreamWithEvents,
    streamWithEvents, executeWithRetry, createEnhancedStreamGenerator,
    createEnhancedStreamGeneratorWithHistory.
  rewrite valid. cbn [maxRetries defaultRetryOptions retryLoop].
  rewrite !E. split; reflexivity.
Qed.

End Cancellation.

Lemma cancelled_fetch_witness :
  let cancelled :=
    ErrorObject false (js "AbortError") (js "The user aborted a request.") in
  let env := ExamplePlatform.always (FetchRejects cancelled) in
  let r := @sendMessageStreamWithEvents ExamplePlatform.platform env
             ExamplePlatform.exampleConfig (js "Hello") None None initialWorld in
  isAbortError cancelled = true
  /\ map ev_type (fst r) = [start; error]
  /\ List.length (fetches (snd r)) = 1%nat
  /\ sleeps (snd r) = [].
Proof.
  cbv zeta. split; [reflexivity|].
  set (cancelled :=
    ErrorObject false (js "AbortError") (js "The user aborted a request.")).
  rewrite (proj1 (@cancelled_fetch_is_not_retried ExamplePlatform.platform
                    (ExamplePlatform.always (FetchRejects cancelled))
                    ExamplePlatform.exampleConfig cancelled eq_refl eq_refl
                    eq_refl (js "Hello") [] None None)).
  repeat split.
Defined.

(* ================================================================== *)
(** ** The two decoders compared *)

Section DecodersCompared.

Context `{Platform}.

(** The two conditions yield the same delta: where the plain decoder finds
    [delta] falsy, the enhanced one reads [content] of it and gets
    [undefined] or a [TypeError], which it catches. *)
Lemma conditions_agree (data : JSValue) :
  yieldsOf (plainCondition data) = yieldsOf (enhancedCondition data).
Proof.
  unfold plainCondition, enhancedCondition.
  destruct (getMember data (js "choices")) as [choices|]; [|reflexivity].
  destruct (truthy choices); cbn [negb]; [|reflexivity].
  destruct (getIndex0 choices) as [choice|]; [|reflexivity].
  destruct (truthy choice); cbn [negb]; [|reflexivity].
  destruct (getMember choice (js "delta")) as [delta|]; [|reflexivity].
  destruct (truthy delta) eqn:T; cbn [negb]; [reflexivity|].
  unfold yieldsOf. rewrite T.
  destruct delta as [| |b|m e|s|items|fields]; try discriminate; try reflexivity.
Qed.

Lemma lines_agree (line : jsstring) :
  isErrorReportLine line = false ->
  plainLine line = (enhancedLine line, None).
Proof.
  unfold isErrorReportLine, plainLine, enhancedLine, plainPayload,
    enhancedPayload.
  destruct (JsString.eqb (trim line) [] || JsString.eqb (trim line) (js "data: [DONE]"));
    [reflexivity|].
  destruct (startsWith (trim line) (js "data: ")); [|reflexivity].
  destruct (JSON_parse (slice 6 (trim line))) as [data|]; [|reflexivity].
  pose proof (conditions_agree data) as C. unfold yieldsOf in C.
  destruct (errorFrameCondition data) as [c|] eqn:E.
  - intros T. rewrite T.
    destruct (plainCondition data) as [p|], (enhancedCondition data) as [q|];
      repeat match goal with
      | |- context [truthy ?v] => destruct (truthy v)
      end; congruence.
  - intros _.
    destruct data as [| |b|m e|s|items|fields];
      try (cbn in E; discriminate); try reflexivity.
    destruct (errorFrameCondition_object fields) as [v [V _]]. congruence.
Qed.

Lemma plainLines_agree (lines : list jsstring) :
  Forall (fun line => isErrorReportLine line = false) lines ->
  plainLines lines = (flat_map enhancedLine lines, None).
Proof.
  induction 1 as [|line lines L _ IH]; [reflexivity|].
  cbn [plainLines flat_map]. now rewrite (lines_agree _ L), IH.
Qed.

Lemma enhancedLine_nonEmpty (lines : list jsstring) :
  flat_map enhancedLine (filter nonEmpty lines) = flat_map enhancedLine lines.
Proof.
  induction lines as [|[|c line] lines IH]; [reflexivity | exact IH |].
  cbn [filter nonEmpty flat_map]. now rewrite IH.
Qed.

Lemma Forall_filter {A} (P : A -> Prop) (f : A -> bool) (l : list A) :
  Forall P l -> Forall P (filter f l).
Proof.
  induction 1 as [|x l p _ IH]; [constructor|].
  cbn. destruct (f x); [constructor|]; assumption.
Qed.

(** X12. On a stream whose chunks all end at a line end and that holds no
    error report of the service, [processStreamResponse] and
    [processEnhancedStreamResponse] yield the same deltas, and both end
    without error. *)
Theorem decoders_agree_on_whole_lines (chunks : list (list byte)) :
  Forall endsLine (decodeEach Utf8.init chunks) ->
  Forall (fun line => isErrorReportLine line = false)
         (split (snd (Utf8.decode Utf8.init (List.concat chunks))) 10) ->
  processStreamResponse (map ReadValue chunks)
  = processEnhancedStreamResponse (map ReadValue chunks)
  /\ snd (processStreamResponse (map ReadValue chunks)) = None.
Proof.
  intros A E.
  assert (P : processStreamResponse (map ReadValue chunks)
              = (flat_map enhancedLine
                   (split (snd (Utf8.decode Utf8.init (List.concat chunks))) 10),
                 None)).
  { unfold processStreamResponse.
    rewrite plainLoop_texts, plainLines_nonEmpty, (aligned_chunks_lines _ A),
      decodeEach_concat.
    rewrite (plainLines_agree _ (Forall_filter _ _ _ E)).
    now rewrite enhancedLine_nonEmpty. }
  rewrite P. split; [|reflexivity].
  unfold processEnhancedStreamResponse.
  rewrite enhancedLoop_whole_text by (intros []). cbv zeta. cbn [app].
  rewrite enhancedRemainder_line, flat_map_removelast_last;
    [reflexivity | apply split_nonempty].
Qed.

End DecodersCompared.

Lemma decoders_agree_witness :
  let frame text :=
    ExamplePlatform.ascii
      (ExamplePlatform.jsq
         ("data: {'choices':[{'delta':{'content':'" ++ text ++ "'}}]}")
       ++ [10; 10]) in
  let chunks := [frame "Hello"; frame " world";
                 ExamplePlatform.ascii (js "data: [DONE]" ++ [10; 10])] in
  @processStreamResponse ExamplePlatform.platform (map ReadValue chunks)
  = @processEnhancedStreamResponse ExamplePlatform.platform
      (map ReadValue chunks)
  /\ @processStreamResponse ExamplePlatform.platform (map ReadValue chunks)
     = ([JStr (js "Hello"); JStr (js " world")], None).
Proof.
  cbv zeta. split; [|vm_compute; reflexivity].
  refine (proj1 (@decoders_agree_on_whole_lines ExamplePlatform.platform _ _ _)).
  - match goal with |- Forall _ ?l =>
      let l' := eval vm_compute in l in change l with l' end.
    repeat (apply Forall_cons;
            [apply endsLine_check; [reflexivity | discriminate]|]).
    apply Forall_nil.
  - match goal with |- Forall _ ?l =>
      let l' := eval vm_compute in l in change l with l' end.
    repeat (apply Forall_cons; [vm_compute; reflexivity|]).
    apply Forall_nil.
Defined.

(* ================================================================== *)
(** ** Error reports of the service inside a stream *)

Lemma reportHead_marker : exists tail, reportHead = reportMarker ++ tail.
Proof. exists (skipn 3 reportHead). vm_compute. reflexivity. Qed.

Section ErrorReport.

Context `{Platform}.
Variable payload : jsstring.
Variable fields : list (jsstring * JSValue).
Variable report : jsstring.

Hypothesis trimmed : trim (dataFrame payload) = dataFrame payload.
Hypothesis notDone : payload <> js "[DONE]".
Hypothesis parsed : JSON_parse payload = Some (JObj fields).
Hypothesis isReport : isApiErrorFrame (JObj fields) = true.
Hypothesis built :
  errorReport (fieldOr "code" fields) (fieldOr "statusText" fields)
              (fieldOr "message" fields) (fieldOr "data" fields)
  = inr report.

Lemma report_starts_with_marker : startsWith report reportMarker = true.
Proof.
  apply startsWith_iff. destruct reportHead_marker as [tail T].
  revert built. unfold errorReport.
  destruct (toStr (fieldOr "code" fields)) as [e|c]; [discriminate|].
  destruct (toStr (fieldOr "statusText" fields)) as [e|st]; [discriminate|].
  destruct (toStr (fieldOr "message" fields)) as [e|m]; [discriminate|].
  generalize reportCode, reportStatus, reportMessage, reportData, hintPoints,
    hintKey, hintRate, (JSON_stringify (fieldOr "data" fields)).
  rewrite T. generalize reportMarker. intros mk a1 a2 a3 a4 a5 a6 a7 a8 B.
  apply (f_equal (fun x => match x with inr r => r | inl _ => report end)) in B.
  cbv beta iota in B. rewrite <- B.
  repeat match goal with
  | |- context [if ?c then _ else _] => destruct c
  end; rewrite <- ?app_assoc; eexists; reflexivity.
Qed.


End ErrorReport.


(* ================================================================== *)
(** ** When the network stays down *)

Section Exhaustion.

Context `{Platform}.
Variable env : Env.
Variable config : FastGPTConfig.
Variable errors : nat -> Thrown.

Hypothesis valid : validateConfig config = None.
Hypothesis rejected : forall n, net env n = FetchRejects (errors n).
Hypothesis retryableErrors : forall n, isRetryableError (errors n) = true.

Lemma retryLoop_exhausts (request : Request) (options : RetryOptions) :
  forall remaining attempt w,
    let r := retryLoop env (completionOperation env request) options remaining
               attempt w in
    fst r = inl (errors (List.length (fetches w) + remaining))
    /\ List.length (fetches (snd r))
       = (List.length (fetches w) + remaining + 1)%nat
    /\ List.length (sleeps (snd r)) = (List.length (sleeps w) + remaining)%nat.
Proof.
  assert (E : forall w,
            completionOperation env request w
            = (inl (errors (List.length (fetches w))), fetched request w)).
  { intros w. unfold completionOperation, fetch. now rewrite rejected. }
  induction remaining as [|remaining IH]; intros attempt w; cbv zeta;
    cbn [retryLoop]; rewrite E.
  - cbn. rewrite length_app, Nat.add_0_r. cbn. repeat split; lia.
  - rewrite retryableErrors. cbn [negb].
    destruct (calculateRetryDelay env attempt options
                (errors (List.length (fetches w))) (fetched request w))
      as [delay w2] eqn:D.
    pose proof (calculateRetryDelay_world env attempt options
                  (errors (List.length (fetches w))) (fetched request w))
      as [W1 W2].
    rewrite D in W1, W2. cbn [snd fetched fetches sleeps] in W1, W2.
    cbn [sleep]. rewrite W1, W2.
    match goal with |- context [retryLoop _ _ _ _ _ ?w3] =>
      specialize (IH (S attempt) w3) end.
    cbv zeta in IH. cbn [fetches sleeps] in IH.
    rewrite !length_app in IH. cbn [List.length] in IH.
    destruct IH as [I1 [I2 I3]]. rewrite I1, I2, I3.
    repeat split; try lia. do 2 f_equal. lia.
Qed.

(** X18. When every fetch of [sendMessage] is rejected with an error the
    executor takes for retryable, the call makes four fetches with three
    sleeps and then throws the error of the last attempt, unchanged. *)
Theorem exhausted_retries_throw_the_last_error
    (text : jsstring) (chat : option jsstring) (vars : option JSValue) :
  let sent := sendMessage env config text chat vars initialWorld in
  fst sent = inl (errors 3)
  /\ List.length (fetches (snd sent)) = 4%nat
  /\ List.length (sleeps (snd sent)) = 3%nat.
Proof.
  cbv zeta. unfold sendMessage, nonStreaming, executeWithRetry. rewrite valid.
  exact (retryLoop_exhausts _ defaultRetryOptions 3 0 initialWorld).
Qed.

End Exhaustion.

Lemma exhausted_retries_witness :
  let errors n :=
    ErrorObject true (js "TypeError")
      (js "Failed to fetch, attempt " ++ ofInt (Z.of_nat n)) in
  let env := {| net := fun n => FetchRejects (errors n);
                random := fun _ => 1 # 2; now := 0;
                freshMessageId := js "msg" |} in
  fst (@sendMessage ExamplePlatform.platform env ExamplePlatform.exampleConfig
         (js "Hello") None None initialWorld)
  = inl (ErrorObject true (js "TypeError") (js "Failed to fetch, attempt 3")).
Proof.
  cbv zeta.
  pose (errors := fun n =>
    ErrorObject true (js "TypeError")
      (js "Failed to fetch, attempt " ++ ofInt (Z.of_nat n))).
  pose (env := {| net := fun n => FetchRejects (errors n);
                  random := fun _ => 1 # 2; now := 0;
                  freshMessageId := js "msg" |}).
  assert (R : forall n, isRetryableError (errors n) = true).
  { intros n. unfold isRetryableError, errors.
    cbn [instanceofTypeError errorMessageIncludes].
    assert (I : includes (js "Failed to fetch, attempt " ++ ofInt (Z.of_nat n))
                         (js "fetch") = true).
    { apply includes_iff. exists (js "Failed to "), (js ", attempt " ++ ofInt (Z.of_nat n)).
      reflexivity. }
    now rewrite I. }
  exact (proj1 (@exhausted_retries_throw_the_last_error
                  ExamplePlatform.platform env ExamplePlatform.exampleConfig
                  errors eq_refl (fun n => eq_refl) R (js "Hello") None None)).
Defined.

Section NetworkDown.

Context `{Platform}.
Variable env : Env.
Variable config : FastGPTConfig.
Variable name reason : jsstring.

Hypothesis valid : validateConfig config = None.
Hypothesis rejected :
  forall n, net env n = FetchRejects (ErrorObject true name reason).
Hypothesis mentionsFetch : includes reason (js "fetch") = true.
Hypothesis notAbort : JsString.eqb name (js "AbortError") = false.
Hypothesis notAborted : includes reason (js "aborted") = false.
Hypothesis notTimeout : includes reason (js "timeout") = false.

(** X19. When every fetch is rejected with a [TypeError] whose message
    mentions [fetch] (the network is unreachable), [testConnection] reports,
    after four fetches, the failure "Network error: Unable to connect to
    FastGPT server" of kind [network], and [sendMessageStreamWithEvents]
    ends, after four fetches, with [start] and a recoverable [connection]
    error event. *)
Theorem unreachable_network_is_reported
    (text : jsstring) (chat : option jsstring) (vars : option JSValue) :
  let tested := testConnection env config initialWorld in
  let r := sendMessageStreamWithEvents env config text chat vars initialWorld in
  fst tested
  = {| success := false;
       ctr_error :=
         Some (JStr (js "Network error: Unable to connect to FastGPT server"));
       details := Some (JStr (js "network")) |}
  /\ List.length (fetches (snd tested)) = 4%nat
  /\ map ev_type (fst r) = [start; error]
  /\ map ev_error (fst r)
     = [None;
        Some {| se_type := connection;
                se_message :=
                  JStr (js "Network connection lost during streaming");
                recoverable := true |}]
  /\ List.length (fetches (snd r)) = 4%nat.
Proof.
  cbv zeta. set (e := ErrorObject true name reason).
  assert (R : isRetryableError e = true).
  { unfold isRetryableError, e. cbn [instanceofTypeError errorMessageIncludes].
    now rewrite mentionsFetch. }
  assert (T : failsEachTime (testOperation env config) e).
  { intros w. exists (testRequest env config).
    unfold testOperation, fetch. now rewrite rejected. }
  assert (O : failsEachTime
                (createEnhancedStreamGenerator env config text chat vars) e).
  { intros w. eexists. unfold createEnhancedStreamGenerator, rethrowing,
      openStream, fetch. rewrite rejected. unfold abortCatch, e.
    cbn [isAbortError]. now rewrite notAbort. }
  destruct (retryLoop_retryable env _ defaultRetryOptions e 3 T R 0%nat
              initialWorld) as [A1 [A2 _]].
  destruct (retryLoop_retryable env _ defaultRetryOptions e 3 O R 0%nat
              initialWorld) as [B1 [B2 _]].
  unfold testConnection, makeTestRequest, sendMessageStreamWithEvents,
    streamWithEvents, executeWithRetry.
  rewrite valid. cbn [maxRetries defaultRetryOptions].
  destruct (retryLoop env (testOperation env config) defaultRetryOptions 3 0
              initialWorld) as [[e1|r1] w1]; cbn [fst snd] in *;
    [|discriminate].
  destruct (retryLoop env
              (createEnhancedStreamGenerator env config text chat vars)
              defaultRetryOptions 3 0 initialWorld) as [[e2|b2] w2];
    cbn [fst snd] in *; [|discriminate].
  injection A1 as ->. injection B1 as ->. unfold e.
  cbn [instanceofTypeError errorMessageIncludes andb]. rewrite mentionsFetch.
  cbn [fst snd map ev_type ev_error startEvent errorEvent
       classifyStreamingError orElse truthy nonEmpty networkError
       message type typeName].
  rewrite notAbort, notAborted, notTimeout, mentionsFetch.
  cbn [orb]. rewrite orb_true_r. cbn [orb]. repeat split; assumption.
Qed.

End NetworkDown.

Lemma unreachable_network_witness :
  let failed := ErrorObject true (js "TypeError") (js "Failed to fetch") in
  let env := ExamplePlatform.always (FetchRejects failed) in
  let tested := @testConnection ExamplePlatform.platform env
                  ExamplePlatform.exampleConfig initialWorld in
  ctr_error (fst tested)
  = Some (JStr (js "Network error: Unable to connect to FastGPT server"))
  /\ List.length (fetches (snd tested)) = 4%nat.
Proof.
  cbv zeta.
  destruct (@unreachable_network_is_reported ExamplePlatform.platform
              (ExamplePlatform.always
                 (FetchRejects
                    (ErrorObject true (js "TypeError") (js "Failed to fetch"))))
              ExamplePlatform.exampleConfig (js "TypeError")
              (js "Failed to fetch") eq_refl (fun n => eq_refl) eq_refl eq_refl
              eq_refl eq_refl (js "Hello") None None) as [A [B _]].
  rewrite A. split; [reflexivity | exact B].
Defined.
